(** * Patient-flow board: stage derivation, timeline and time statistics

    A shallow embedding of the core logic of the kanban page
    (src/app/kanban/page.tsx: [getPatientStage], [patientsByStage],
    [getTimeInStage]) and of the timeline utilities that follow it in the
    same file ([generatePatientTimeline], [calculatePatientTimeStats],
    [calculateDuration]).

    Conventions of the embedding.
    - A timestamp is represented by its time value, the integer number of
      milliseconds since the epoch that [new Date(s).getTime()] yields for
      the date string [s]; an optional timestamp that is undefined (or the
      empty string, which JavaScript also treats as false) is [None].
    - [Math.floor(x / 60000)] on an integer [x] is [x / 60000] in [Z]
      (floor division, rounding towards minus infinity).
    - String-valued fields that arrive as data (patient and study status)
      stay strings; values the code produces from literals (stages, event
      kinds) are enumerations.
    - The current instant ([Date.now()], [new Date()]) is an argument
      [now]. *)

From Stdlib Require Import ZArith List Sorted Permutation Ascii DecimalString DecimalZ DecimalPos.
From stdpp Require Import base gmap strings list sorting.

Local Open Scope Z_scope.

(** ** Data model *)

(** Modelled from the spec: the timeline utilities import [Patient],
    [Study], [TimelineEvent] and [PatientTimeStats] from a [types] module
    that is not among the sources. The records below have the fields the
    page declares, together with the fields the utilities read or write and
    section 3 of the specification lists ([inProgressAt] and [reviewedAt]
    of a study, [dischargedAt] of a patient, the six fields of an event,
    the five statistics). *)
Module Study.
Record t := mk {
  id : string;
  patientId : string;
  name : string;
  type : string;
  status : string;
  requestedAt : Z;
  inProgressAt : option Z;
  completedAt : option Z;
  reviewedAt : option Z;
  waitTime : Z;
  hasAlert : bool
}.
End Study.

Module Doctor.
Record t := mk {
  id : string;
  name : string;
  specialty : string;
  available : bool
}.
End Doctor.

Module Patient.
Record t := mk {
  id : string;
  name : string;
  age : Z;
  gender : string;
  insurance : string;
  diagnosis : string;
  severity : string;
  room : string;
  doctorId : string;
  phone : string;
  admissionTime : Z;
  status : string;
  studies : list Study.t;
  doctor : option Doctor.t;
  assignedToDoctorAt : option Z;
  firstStudyRequestedAt : option Z;
  allStudiesCompletedAt : option Z;
  dischargedAt : option Z
}.
End Patient.

Inductive KanbanStage :=
  | admission
  | waiting_doctor
  | in_studies
  | results_ready
  | in_progress
  | discharge.

#[global] Instance KanbanStage_eq_dec : EqDecision KanbanStage.
Proof. solve_decision. Defined.

Definition stage_code (st : KanbanStage) : nat :=
  match st with
  | admission => 0 | waiting_doctor => 1 | in_studies => 2
  | results_ready => 3 | in_progress => 4 | discharge => 5
  end%nat.

Definition stage_of_code (n : nat) : option KanbanStage :=
  match n with
  | 0 => Some admission | 1 => Some waiting_doctor | 2 => Some in_studies
  | 3 => Some results_ready | 4 => Some in_progress | 5 => Some discharge
  | _ => None
  end%nat.

#[global] Instance KanbanStage_countable : Countable KanbanStage.
Proof.
  apply (inj_countable stage_code stage_of_code).
  intros []; reflexivity.
Defined.

Definition all_stages : list KanbanStage :=
  [admission; waiting_doctor; in_studies; results_ready; in_progress; discharge].

(** The three values of the study status enumeration, as the strings the
    code compares with. *)
Definition Requested : string := "Solicitado".
Definition PendingResult : string := "Pendiente Resultado".
Definition Completed : string := "Completado".

(** JavaScript truthiness of an optional timestamp. *)
Definition truthy (o : option Z) : bool :=
  match o with Some _ => true | None => false end.

(** ** Stage classifier *)

Definition getPatientStage (patient : Patient.t) : KanbanStage :=
  if (Patient.status patient =? "discharged")%string then discharge else
  let hasStudies := (0 <? length (Patient.studies patient))%nat in
  let allStudiesCompleted :=
    hasStudies &&
    forallb (fun s => (Study.status s =? "Completado")%string) (Patient.studies patient) in
  let hasStudiesInProgress :=
    hasStudies &&
    existsb (fun s => (Study.status s =? "Pendiente Resultado")%string) (Patient.studies patient) in
  let hasStudiesPending :=
    hasStudies &&
    existsb (fun s => (Study.status s =? "Solicitado")%string) (Patient.studies patient) in
  if negb (truthy (Patient.assignedToDoctorAt patient)) then admission else
  if negb hasStudies then waiting_doctor else
  if hasStudiesPending || hasStudiesInProgress then in_studies else
  if allStudiesCompleted && negb (truthy (Patient.allStudiesCompletedAt patient))
  then results_ready else
  if allStudiesCompleted && truthy (Patient.allStudiesCompletedAt patient)
  then in_progress else
  waiting_doctor.

(** The same decision sequence, recording which of the seven [return]
    statements of [getPatientStage] is executed. *)
Inductive ReturnSite :=
  | ret_discharge
  | ret_admission
  | ret_no_studies
  | ret_in_studies
  | ret_results_ready
  | ret_in_progress
  | ret_fallback.

Definition site_stage (r : ReturnSite) : KanbanStage :=
  match r with
  | ret_discharge => discharge
  | ret_admission => admission
  | ret_no_studies => waiting_doctor
  | ret_in_studies => in_studies
  | ret_results_ready => results_ready
  | ret_in_progress => in_progress
  | ret_fallback => waiting_doctor
  end.

Definition getPatientStage_site (patient : Patient.t) : ReturnSite :=
  if (Patient.status patient =? "discharged")%string then ret_discharge else
  let hasStudies := (0 <? length (Patient.studies patient))%nat in
  let allStudiesCompleted :=
    hasStudies &&
    forallb (fun s => (Study.status s =? "Completado")%string) (Patient.studies patient) in
  let hasStudiesInProgress :=
    hasStudies &&
    existsb (fun s => (Study.status s =? "Pendiente Resultado")%string) (Patient.studies patient) in
  let hasStudiesPending :=
    hasStudies &&
    existsb (fun s => (Study.status s =? "Solicitado")%string) (Patient.studies patient) in
  if negb (truthy (Patient.assignedToDoctorAt patient)) then ret_admission else
  if negb hasStudies then ret_no_studies else
  if hasStudiesPending || hasStudiesInProgress then ret_in_studies else
  if allStudiesCompleted && negb (truthy (Patient.allStudiesCompletedAt patient))
  then ret_results_ready else
  if allStudiesCompleted && truthy (Patient.allStudiesCompletedAt patient)
  then ret_in_progress else
  ret_fallback.

(** The decision table of the classifier, row by row: every row carries the
    failure of the rows above it. *)
Definition in_flight (s : Study.t) : Prop :=
  Study.status s = Requested ∨ Study.status s = PendingResult.

Definition is_completed (s : Study.t) : Prop := Study.status s = Completed.

Inductive classifyStage (p : Patient.t) : KanbanStage → Prop :=
  | row_discharge :
      Patient.status p = "discharged" →
      classifyStage p discharge
  | row_admission :
      Patient.status p ≠ "discharged" →
      Patient.assignedToDoctorAt p = None →
      classifyStage p admission
  | row_waiting_doctor :
      Patient.status p ≠ "discharged" →
      Patient.assignedToDoctorAt p ≠ None →
      Patient.studies p = [] →
      classifyStage p waiting_doctor
  | row_in_studies :
      Patient.status p ≠ "discharged" →
      Patient.assignedToDoctorAt p ≠ None →
      Patient.studies p ≠ [] →
      Exists in_flight (Patient.studies p) →
      classifyStage p in_studies
  | row_results_ready :
      Patient.status p ≠ "discharged" →
      Patient.assignedToDoctorAt p ≠ None →
      Patient.studies p ≠ [] →
      ¬ Exists in_flight (Patient.studies p) →
      Forall is_completed (Patient.studies p) →
      Patient.allStudiesCompletedAt p = None →
      classifyStage p results_ready
  | row_in_progress :
      Patient.status p ≠ "discharged" →
      Patient.assignedToDoctorAt p ≠ None →
      Patient.studies p ≠ [] →
      ¬ Exists in_flight (Patient.studies p) →
      Forall is_completed (Patient.studies p) →
      Patient.allStudiesCompletedAt p ≠ None →
      classifyStage p in_progress
  | row_fallback :
      Patient.status p ≠ "discharged" →
      Patient.assignedToDoctorAt p ≠ None →
      Patient.studies p ≠ [] →
      ¬ Exists in_flight (Patient.studies p) →
      ¬ Forall is_completed (Patient.studies p) →
      classifyStage p waiting_doctor.

(** ** Grouping by stage *)

(** The object literal [grouped]: all six keys, each bound to its own empty
    array. *)
Definition grouped_init : gmap KanbanStage (list Patient.t) :=
  <[admission := []]>
  (<[waiting_doctor := []]>
  (<[in_studies := []]>
  (<[results_ready := []]>
  (<[in_progress := []]>
  (<[discharge := []]> ∅))))).

(** One iteration of the [forEach]: [grouped[stage].push(patient)]. Reading
    a missing key gives [undefined], on which [push] throws; that is
    [None]. *)
Definition push_patient (grouped : gmap KanbanStage (list Patient.t))
    (patient : Patient.t) : option (gmap KanbanStage (list Patient.t)) :=
  let stage := getPatientStage patient in
  match grouped !! stage with
  | Some bucket => Some (<[stage := bucket ++ [patient]]> grouped)
  | None => None
  end.

Fixpoint forEach_push (patients : list Patient.t)
    (grouped : gmap KanbanStage (list Patient.t))
    : option (gmap KanbanStage (list Patient.t)) :=
  match patients with
  | [] => Some grouped
  | patient :: rest =>
      match push_patient grouped patient with
      | Some grouped' => forEach_push rest grouped'
      | None => None
      end
  end.

Definition patientsByStage (patients : list Patient.t)
    : option (gmap KanbanStage (list Patient.t)) :=
  forEach_push patients grouped_init.

(** ** Time in the current stage *)

(** A JavaScript number as far as this code can produce one: an integer or
    an infinity. *)
Inductive number :=
  | Num (z : Z)
  | Infinity
  | NegInfinity.

(** [Math.max(...xs)]: minus infinity for no argument. *)
Definition Math_max (xs : list Z) : number :=
  foldr (fun x acc =>
           match acc with
           | Num m => Num (Z.max x m)
           | Infinity => Infinity
           | NegInfinity => Num x
           end) NegInfinity xs.

(** [Math.floor((now - x) / 60000)]. *)
Definition floor_minutes_since (now : Z) (x : number) : number :=
  match x with
  | Num t => Num ((now - t) / 60000)
  | Infinity => NegInfinity
  | NegInfinity => Infinity
  end.

Definition getTimeInStage (now : Z) (patient : Patient.t) : number :=
  let stage := getPatientStage patient in
  match stage with
  | admission =>
      Num ((now - Patient.admissionTime patient) / 60000)
  | waiting_doctor =>
      Num ((now - default (Patient.admissionTime patient)
                          (Patient.assignedToDoctorAt patient)) / 60000)
  | in_studies =>
      Num ((now - default (Patient.admissionTime patient)
                          (Patient.firstStudyRequestedAt patient)) / 60000)
  | results_ready =>
      let lastCompleted :=
        Math_max (map (fun s => default 0 (Study.completedAt s))
                      (Patient.studies patient)) in
      floor_minutes_since now lastCompleted
  | in_progress =>
      Num ((now - default (Patient.admissionTime patient)
                          (Patient.allStudiesCompletedAt patient)) / 60000)
  | _ => Num 0
  end.

(** ** Timeline *)

Module Event.
Inductive kind :=
  | admission
  | doctor_assigned
  | study_requested
  | study_in_progress
  | study_completed
  | study_reviewed
  | all_completed
  | discharge.
End Event.

#[global] Instance Event_kind_eq_dec : EqDecision Event.kind.
Proof. solve_decision. Defined.

Module TimelineEvent.
Record t := mk {
  id : string;
  timestamp : Z;
  type : Event.kind;
  title : string;
  description : string;
  duration : Z
}.
End TimelineEvent.

Definition calculateDuration (from to : Z) : Z := (to - from) / 60000.

(** [Array.prototype.sort] with the comparator
    [(a, b) => key(a) - key(b)]: the sort is stable, so its result is the
    one a stable insertion sort gives. *)
Section StableSort.
Context {A : Type} (key : A → Z).

Fixpoint insert_by (x : A) (l : list A) : list A :=
  match l with
  | [] => [x]
  | y :: l' => if key x <=? key y then x :: y :: l' else y :: insert_by x l'
  end.

Fixpoint sort_by (l : list A) : list A :=
  match l with
  | [] => []
  | x :: l' => insert_by x (sort_by l')
  end.
End StableSort.

(** Template-literal interpolation of a length. *)
Definition show_nat (n : nat) : string := NilZero.string_of_uint (Nat.to_uint n).

(** The state threaded through the emission: the array [events] and the
    cursor [previousTimestamp]. *)
Record Emission := mkEmission {
  events : list TimelineEvent.t;
  previousTimestamp : Z
}.

(** The block repeated for every optional checkpoint:
    [if (ts) { const duration = calculateDuration(previousTimestamp, ts);
    events.push({..., timestamp: ts, ..., duration}); previousTimestamp = ts }].
    [push_checkpoint] is the array after the block and [checkpoint] the
    whole state after it. *)
Definition push_checkpoint (ts : option Z) (id : string) (type : Event.kind)
    (title description : string) (st : Emission) : list TimelineEvent.t :=
  match ts with
  | Some t =>
      let duration := calculateDuration (previousTimestamp st) t in
      events st ++ [TimelineEvent.mk id t type title description duration]
  | None => events st
  end.

Definition checkpoint (ts : option Z) (id : string) (type : Event.kind)
    (title description : string) (st : Emission) : Emission :=
  {| events := push_checkpoint ts id type title description st;
     previousTimestamp :=
       match ts with Some t => t | None => previousTimestamp st end |}.

Definition studyEvents (st : Emission) (study : Study.t) : Emission :=
  let st :=
    checkpoint (Study.inProgressAt study)
      (Study.id study +:+ "-in-progress") Event.study_in_progress
      (Study.name study +:+ " - En Proceso")
      ("Estudio " +:+ Study.type study +:+ " en proceso") st in
  let st :=
    checkpoint (Study.completedAt study)
      (Study.id study +:+ "-completed") Event.study_completed
      (Study.name study +:+ " - Completado")
      (if Study.hasAlert study
       then "⚠️ Resultado anormal detectado"
       else "Resultado disponible") st in
  checkpoint (Study.reviewedAt study)
    (Study.id study +:+ "-reviewed") Event.study_reviewed
    (Study.name study +:+ " - Revisado")
    "Resultado revisado por médico" st.

(** The first event pushed, unconditionally. *)
Definition admissionEvent (patient : Patient.t) : TimelineEvent.t :=
  TimelineEvent.mk (Patient.id patient +:+ "-admission")
    (Patient.admissionTime patient) Event.admission
    "Ingreso a Emergencias"
    ("Paciente ingresado con diagnóstico: " +:+ Patient.diagnosis patient)
    0.

(** The array [events] as it stands just before the final sort. The last
    block pushes the discharge event and leaves the cursor alone. *)
Definition emittedEvents (patient : Patient.t) (studies : list Study.t)
    : list TimelineEvent.t :=
  let st :=
    {| events := [admissionEvent patient];
       previousTimestamp := Patient.admissionTime patient |} in
  let st :=
    checkpoint (Patient.assignedToDoctorAt patient)
      (Patient.id patient +:+ "-doctor-assigned") Event.doctor_assigned
      "Asignado a Médico" "Paciente asignado a médico tratante" st in
  let st :=
    checkpoint (Patient.firstStudyRequestedAt patient)
      (Patient.id patient +:+ "-first-study") Event.study_requested
      "Estudios Solicitados"
      (show_nat (length studies) +:+ " estudio(s) solicitado(s)") st in
  let sortedStudies := sort_by Study.requestedAt studies in
  let st := foldl studyEvents st sortedStudies in
  let st :=
    checkpoint (Patient.allStudiesCompletedAt patient)
      (Patient.id patient +:+ "-all-completed") Event.all_completed
      "Todos los Estudios Completados"
      "Paciente listo para evaluación final" st in
  push_checkpoint (Patient.dischargedAt patient)
    (Patient.id patient +:+ "-discharge") Event.discharge
    "Alta Médica" "Paciente dado de alta" st.

Definition generatePatientTimeline (patient : Patient.t) (studies : list Study.t)
    : list TimelineEvent.t :=
  sort_by TimelineEvent.timestamp (emittedEvents patient studies).

(** ** Time statistics *)

Module PatientTimeStats.
Record t := mk {
  totalTime : Z;
  waitingForStudies : Z;
  waitingForReview : Z;
  studiesInProgress : Z;
  averageStudyTime : Z
}.
End PatientTimeStats.

Definition calculatePatientTimeStats (now : Z) (patient : Patient.t)
    (studies : list Study.t) : PatientTimeStats.t :=
  let admissionTime := Patient.admissionTime patient in
  let dischargeTime :=
    match Patient.dischargedAt patient with Some d => d | None => now end in
  let totalTime := (dischargeTime - admissionTime) / 60000 in
  let waitingForStudies :=
    foldl (fun acc study =>
             let requestedAt := Study.requestedAt study in
             let completedAt :=
               match Study.completedAt study with Some c => c | None => now end in
             acc + (completedAt - requestedAt) / 60000) 0 studies in
  let waitingForReview :=
    foldl (fun acc study =>
             match Study.completedAt study, Study.reviewedAt study with
             | Some completedAt, None => acc + (now - completedAt) / 60000
             | Some completedAt, Some reviewedAt =>
                 acc + (reviewedAt - completedAt) / 60000
             | None, _ => acc
             end) 0 studies in
  let studiesInProgress :=
    foldl (fun acc study =>
             match Study.inProgressAt study, Study.completedAt study with
             | Some inProgressAt, Some completedAt =>
                 acc + (completedAt - inProgressAt) / 60000
             | _, _ => acc
             end) 0 studies in
  let completedStudies :=
    length (List.filter (fun s => truthy (Study.completedAt s)) studies) in
  let averageStudyTime :=
    if (0 <? completedStudies)%nat
    then waitingForStudies / Z.of_nat completedStudies
    else 0 in
  PatientTimeStats.mk totalTime waitingForStudies waitingForReview
    studiesInProgress averageStudyTime.

(** ** Notions used to state the properties *)

(** Whole minutes from [from] to [to], rounded down. *)
Definition minutes (from to : Z) : Z := (to - from) / 60000.

(** Sum of [f] over a list. *)
Definition sumZ {A} (f : A → Z) (l : list A) : Z := foldr (fun x acc => f x + acc) 0 l.

(** [m] is the greatest element of the non-empty list [l]. *)
Definition is_max (m : Z) (l : list Z) : Prop := m ∈ l ∧ Forall (fun x => x <= m) l.

(** The checkpoints of the narrative template, in template order, each with
    its optional timestamp; the studies are taken in the order given. *)
Definition study_checkpoints (s : Study.t) : list (Event.kind * option Z) :=
  [ (Event.study_in_progress, Study.inProgressAt s);
    (Event.study_completed, Study.completedAt s);
    (Event.study_reviewed, Study.reviewedAt s) ].

Definition template (p : Patient.t) (ordered : list Study.t)
    : list (Event.kind * option Z) :=
  [ (Event.admission, Some (Patient.admissionTime p));
    (Event.doctor_assigned, Patient.assignedToDoctorAt p);
    (Event.study_requested, Patient.firstStudyRequestedAt p) ]
  ++ (ordered ≫= study_checkpoints)
  ++ [ (Event.all_completed, Patient.allStudiesCompletedAt p);
       (Event.discharge, Patient.dischargedAt p) ].

(** The checkpoints that are present, with their timestamps. *)
Definition reached (cps : list (Event.kind * option Z)) : list (Event.kind * Z) :=
  omap (fun cp => match snd cp with Some t => Some (fst cp, t) | None => None end) cps.

Definition kind_and_time (e : TimelineEvent.t) : Event.kind * Z :=
  (TimelineEvent.type e, TimelineEvent.timestamp e).

(** The lifecycle of a patient and of one of its studies: the timestamps
    that are present, in lifecycle order. *)
Definition present (ts : list (option Z)) : list Z := omap (fun o => o) ts.

Definition patient_lifecycle (p : Patient.t) : list Z :=
  present [ Some (Patient.admissionTime p);
            Patient.assignedToDoctorAt p;
            Patient.firstStudyRequestedAt p;
            Patient.allStudiesCompletedAt p;
            Patient.dischargedAt p ].

Definition study_lifecycle (p : Patient.t) (s : Study.t) : list Z :=
  present [ Some (Patient.admissionTime p);
            Patient.assignedToDoctorAt p;
            Patient.firstStudyRequestedAt p;
            Some (Study.requestedAt s);
            Study.inProgressAt s;
            Study.completedAt s;
            Study.reviewedAt s;
            Patient.allStudiesCompletedAt p;
            Patient.dischargedAt p ].

Definition monotonic (p : Patient.t) (studies : list Study.t) : Prop :=
  Sorted Z.le (patient_lifecycle p) ∧
  Forall (fun s => Sorted Z.le (study_lifecycle p s)) studies.

Definition not_in_future (now : Z) (p : Patient.t) (studies : list Study.t) : Prop :=
  Forall (fun t => t <= now) (patient_lifecycle p) ∧
  Forall (fun s => Forall (fun t => t <= now) (study_lifecycle p s)) studies.

(** ** The scenario of the specification *)

(** Time value of the UTC date-time [y-mo-d T h:mi:s Z]. *)
Definition days_from_civil (y mo d : Z) : Z :=
  let y' := if mo <=? 2 then y - 1 else y in
  let era := y' / 400 in
  let yoe := y' - era * 400 in
  let mp := (mo + 9) mod 12 in
  let doy := (153 * mp + 2) / 5 + d - 1 in
  let doe := yoe * 365 + yoe / 4 - yoe / 100 + doy in
  era * 146097 + doe - 719468.

Definition utc (y mo d h mi s : Z) : Z :=
  (((days_from_civil y mo d * 24 + h) * 60 + mi) * 60 + s) * 1000.

Definition scenario_study : Study.t :=
  {| Study.id := "s1"; Study.patientId := "p1";
     Study.name := "Hemograma"; Study.type := "Laboratorio";
     Study.status := "Completado";
     Study.requestedAt := utc 2024 1 1 10 20 0;
     Study.inProgressAt := Some (utc 2024 1 1 10 25 0);
     Study.completedAt := Some (utc 2024 1 1 10 40 0);
     Study.reviewedAt := Some (utc 2024 1 1 10 45 0);
     Study.waitTime := 20;
     Study.hasAlert := true |}.

Definition scenario_patient : Patient.t :=
  {| Patient.id := "p1"; Patient.name := "Paciente"; Patient.age := 50;
     Patient.gender := "F"; Patient.insurance := "OSDE";
     Patient.diagnosis := "Dolor abdominal"; Patient.severity := "Urgente";
     Patient.room := "Box 1"; Patient.doctorId := "d1"; Patient.phone := "";
     Patient.admissionTime := utc 2024 1 1 10 0 0;
     Patient.status := "active";
     Patient.studies := [scenario_study];
     Patient.doctor := None;
     Patient.assignedToDoctorAt := Some (utc 2024 1 1 10 10 0);
     Patient.firstStudyRequestedAt := Some (utc 2024 1 1 10 20 0);
     Patient.allStudiesCompletedAt := Some (utc 2024 1 1 10 40 0);
     Patient.dischargedAt := None |}.

Definition scenario_now : Z := utc 2024 1 1 11 0 0.

Definition discharged_patient : Patient.t :=
  {| Patient.id := "p2"; Patient.name := "Paciente"; Patient.age := 31;
     Patient.gender := "M"; Patient.insurance := "PAMI";
     Patient.diagnosis := "Fractura"; Patient.severity := "Estable";
     Patient.room := "Box 2"; Patient.doctorId := "d1"; Patient.phone := "";
     Patient.admissionTime := utc 2024 1 1 10 0 0;
     Patient.status := "discharged";
     Patient.studies := [];
     Patient.doctor := None;
     Patient.assignedToDoctorAt := None;
     Patient.firstStudyRequestedAt := None;
     Patient.allStudiesCompletedAt := None;
     Patient.dischargedAt := None |}.

(** A study whose status is none of the three enumeration values. *)
Definition odd_study : Study.t :=
  {| Study.id := "s9"; Study.patientId := "p3";
     Study.name := "Ecografia"; Study.type := "Imagen";
     Study.status := "Cancelado";
     Study.requestedAt := utc 2024 1 1 10 20 0;
     Study.inProgressAt := None;
     Study.completedAt := None;
     Study.reviewedAt := None;
     Study.waitTime := 0;
     Study.hasAlert := false |}.

Definition odd_patient : Patient.t :=
  {| Patient.id := "p3"; Patient.name := "Paciente"; Patient.age := 44;
     Patient.gender := "F"; Patient.insurance := "OSDE";
     Patient.diagnosis := "Cefalea"; Patient.severity := "Estable";
     Patient.room := "Box 3"; Patient.doctorId := "d1"; Patient.phone := "";
     Patient.admissionTime := utc 2024 1 1 10 0 0;
     Patient.status := "active";
     Patient.studies := [odd_study];
     Patient.doctor := None;
     Patient.assignedToDoctorAt := Some (utc 2024 1 1 10 10 0);
     Patient.firstStudyRequestedAt := Some (utc 2024 1 1 10 20 0);
     Patient.allStudiesCompletedAt := None;
     Patient.dischargedAt := None |}.

(** What holds of the patient at each [return] statement. *)
Definition site_condition (p : Patient.t) (r : ReturnSite) : Prop :=
  match r with
  | ret_discharge => Patient.status p = "discharged"
  | ret_admission =>
      Patient.status p ≠ "discharged" ∧ Patient.assignedToDoctorAt p = None
  | ret_no_studies =>
      Patient.status p ≠ "discharged" ∧ Patient.assignedToDoctorAt p ≠ None ∧
      Patient.studies p = []
  | ret_in_studies =>
      Patient.status p ≠ "discharged" ∧ Patient.assignedToDoctorAt p ≠ None ∧
      Patient.studies p ≠ [] ∧ Exists in_flight (Patient.studies p)
  | ret_results_ready =>
      Patient.status p ≠ "discharged" ∧ Patient.assignedToDoctorAt p ≠ None ∧
      Patient.studies p ≠ [] ∧ ¬ Exists in_flight (Patient.studies p) ∧
      Forall is_completed (Patient.studies p) ∧
      Patient.allStudiesCompletedAt p = None
  | ret_in_progress =>
      Patient.status p ≠ "discharged" ∧ Patient.assignedToDoctorAt p ≠ None ∧
      Patient.studies p ≠ [] ∧ ¬ Exists in_flight (Patient.studies p) ∧
      Forall is_completed (Patient.studies p) ∧
      Patient.allStudiesCompletedAt p ≠ None
  | ret_fallback =>
      Patient.status p ≠ "discharged" ∧ Patient.assignedToDoctorAt p ≠ None ∧
      Patient.studies p ≠ [] ∧ ¬ Exists in_flight (Patient.studies p) ∧
      ¬ Forall is_completed (Patient.studies p)
  end.

(** The patients of a list that are in a given stage, in list order, and the
    six lists of a grouping laid end to end. *)
Definition in_stage (st : KanbanStage) (patients : list Patient.t) : list Patient.t :=
  filter (fun p => getPatientStage p = st) patients.

Definition buckets (grouped : gmap KanbanStage (list Patient.t)) : list Patient.t :=
  concat (map (fun st => default [] (grouped !! st)) all_stages).

(** What one study adds to each of the sums of the statistics. *)
Definition study_wait (now : Z) (s : Study.t) : Z :=
  minutes (Study.requestedAt s)
          (match Study.completedAt s with Some c => c | None => now end).

Definition review_wait (now : Z) (s : Study.t) : Z :=
  match Study.completedAt s with
  | Some c => minutes c (match Study.reviewedAt s with Some r => r | None => now end)
  | None => 0
  end.

Definition processing_time (s : Study.t) : Z :=
  match Study.inProgressAt s, Study.completedAt s with
  | Some i, Some c => minutes i c
  | _, _ => 0
  end.

Definition with_completedAt (studies : list Study.t) : list Study.t :=
  filter (fun s => is_Some (Study.completedAt s)) studies.

Definition with_inProgressAt_and_completedAt (studies : list Study.t) : list Study.t :=
  filter (fun s => is_Some (Study.inProgressAt s) ∧ is_Some (Study.completedAt s)) studies.

(** A patient whose studies are all completed and not yet marked so; its
    second study carries the status without a completion time. *)
Definition ready_study_a : Study.t :=
  {| Study.id := "s4"; Study.patientId := "p4";
     Study.name := "Radiografia"; Study.type := "Imagen";
     Study.status := "Completado";
     Study.requestedAt := utc 2024 1 1 10 20 0;
     Study.inProgressAt := Some (utc 2024 1 1 10 25 0);
     Study.completedAt := Some (utc 2024 1 1 10 40 0);
     Study.reviewedAt := None;
     Study.waitTime := 20;
     Study.hasAlert := false |}.

Definition ready_study_b : Study.t :=
  {| Study.id := "s5"; Study.patientId := "p4";
     Study.name := "Orina"; Study.type := "Laboratorio";
     Study.status := "Completado";
     Study.requestedAt := utc 2024 1 1 10 22 0;
     Study.inProgressAt := None;
     Study.completedAt := None;
     Study.reviewedAt := None;
     Study.waitTime := 0;
     Study.hasAlert := false |}.

Definition ready_patient (studies : list Study.t) : Patient.t :=
  {| Patient.id := "p4"; Patient.name := "Paciente"; Patient.age := 67;
     Patient.gender := "M"; Patient.insurance := "PAMI";
     Patient.diagnosis := "Disnea"; Patient.severity := "Urgente";
     Patient.room := "Box 4"; Patient.doctorId := "d2"; Patient.phone := "";
     Patient.admissionTime := utc 2024 1 1 10 0 0;
     Patient.status := "active";
     Patient.studies := studies;
     Patient.doctor := None;
     Patient.assignedToDoctorAt := Some (utc 2024 1 1 10 10 0);
     Patient.firstStudyRequestedAt := Some (utc 2024 1 1 10 20 0);
     Patient.allStudiesCompletedAt := None;
     Patient.dischargedAt := None |}.

(** Every event of [l] carries as duration the whole minutes from the event
    before it, the first one from [prev]; and the timestamp of the last
    event of [l], or [prev] when there is none. *)
Fixpoint chained_from (prev : Z) (l : list TimelineEvent.t) : Prop :=
  match l with
  | [] => True
  | e :: l' =>
      TimelineEvent.duration e = minutes prev (TimelineEvent.timestamp e) ∧
      chained_from (TimelineEvent.timestamp e) l'
  end.

Definition last_timestamp (prev : Z) (l : list TimelineEvent.t) : Z :=
  foldl (fun _ e => TimelineEvent.timestamp e) prev l.

(** The invariant of the emission: the array starts with the admission
    event, its durations are chained, and the cursor is the timestamp of
    its last event. *)
Definition cursor_ok (p : Patient.t) (st : Emission) : Prop :=
  (∃ rest, events st = admissionEvent p :: rest) ∧
  chained_from (Patient.admissionTime p) (events st) ∧
  previousTimestamp st = last_timestamp (Patient.admissionTime p) (events st).

(** The timestamps of the checkpoints that are present. *)
Definition checkpoint_times (p : Patient.t) (studies : list Study.t) : list Z :=
  map snd (reached (template p studies)).

Definition by_timestamp (a b : TimelineEvent.t) : Prop :=
  TimelineEvent.timestamp a <= TimelineEvent.timestamp b.

(** A patient whose doctor assignment is recorded ten minutes before its
    admission. *)
Definition early_doctor_patient : Patient.t :=
  {| Patient.id := "p5"; Patient.name := "Paciente"; Patient.age := 25;
     Patient.gender := "F"; Patient.insurance := "OSDE";
     Patient.diagnosis := "Esguince"; Patient.severity := "Estable";
     Patient.room := "Box 5"; Patient.doctorId := "d2"; Patient.phone := "";
     Patient.admissionTime := utc 2024 1 1 10 0 0;
     Patient.status := "active";
     Patient.studies := [];
     Patient.doctor := None;
     Patient.assignedToDoctorAt := Some (utc 2024 1 1 9 50 0);
     Patient.firstStudyRequestedAt := None;
     Patient.allStudiesCompletedAt := None;
     Patient.dischargedAt := None |}.

(** ** Further code of the page and of the timeline utilities *)

(** Template-literal interpolation of an integer: its decimal numeral, with
    a leading minus sign when negative. *)
Definition show_Z (z : Z) : string := NilZero.string_of_int (Z.to_int z).

(** [minutes % 60] is the remainder of the division that truncates. *)
Definition formatDuration (minutes : Z) : string :=
  if minutes <? 60 then show_Z minutes +:+ "m"
  else
    let hours := minutes / 60 in
    let mins := Z.rem minutes 60 in
    if 0 <? mins
    then show_Z hours +:+ "h " +:+ show_Z mins +:+ "m"
    else show_Z hours +:+ "h".

(** The lookup tables of the event kinds. *)
Definition kind_code (k : Event.kind) : nat :=
  match k with
  | Event.admission => 0 | Event.doctor_assigned => 1
  | Event.study_requested => 2 | Event.study_in_progress => 3
  | Event.study_completed => 4 | Event.study_reviewed => 5
  | Event.all_completed => 6 | Event.discharge => 7
  end%nat.

Definition kind_of_code (n : nat) : option Event.kind :=
  match n with
  | 0 => Some Event.admission | 1 => Some Event.doctor_assigned
  | 2 => Some Event.study_requested | 3 => Some Event.study_in_progress
  | 4 => Some Event.study_completed | 5 => Some Event.study_reviewed
  | 6 => Some Event.all_completed | 7 => Some Event.discharge
  | _ => None
  end%nat.

#[global] Instance Event_kind_countable : Countable Event.kind.
Proof.
  apply (inj_countable kind_code kind_of_code).
  intros []; reflexivity.
Defined.

Definition all_kinds : list Event.kind :=
  [ Event.admission; Event.doctor_assigned; Event.study_requested;
    Event.study_in_progress; Event.study_completed; Event.study_reviewed;
    Event.all_completed; Event.discharge ].

(** [table[key] || fallback]: the fallback is taken for a missing key and
    for an empty string. *)
Definition lookup_or (table : gmap Event.kind string) (key : Event.kind)
    (fallback : string) : string :=
  match table !! key with
  | Some v => if (v =? "")%string then fallback else v
  | None => fallback
  end.

Definition colors : gmap Event.kind string :=
  <[Event.admission := "text-primary"]>
  (<[Event.doctor_assigned := "text-accent"]>
  (<[Event.study_requested := "text-warning"]>
  (<[Event.study_in_progress := "text-info"]>
  (<[Event.study_completed := "text-success"]>
  (<[Event.study_reviewed := "text-success"]>
  (<[Event.all_completed := "text-success"]>
  (<[Event.discharge := "text-muted-foreground"]> ∅))))))).

Definition getEventColor (type : Event.kind) : string :=
  lookup_or colors type "text-foreground".

Definition icons : gmap Event.kind string :=
  <[Event.admission := "UserPlus"]>
  (<[Event.doctor_assigned := "Stethoscope"]>
  (<[Event.study_requested := "FileText"]>
  (<[Event.study_in_progress := "Clock"]>
  (<[Event.study_completed := "CheckCircle"]>
  (<[Event.study_reviewed := "Eye"]>
  (<[Event.all_completed := "CheckCircle2"]>
  (<[Event.discharge := "UserX"]> ∅))))))).

Definition getEventIcon (type : Event.kind) : string :=
  lookup_or icons type "Circle".

(** The columns of the board, in display order. *)
Module Stage.
Record t := mk {
  id : KanbanStage;
  title : string;
  icon : string;
  color : string;
  headerColor : string
}.
End Stage.

Definition stages : list Stage.t :=
  [ Stage.mk admission "En Admisión" "User"
      "bg-blue-500/10 border-blue-500/20" "bg-blue-500";
    Stage.mk waiting_doctor "Esperando Atención Médica" "Stethoscope"
      "bg-purple-500/10 border-purple-500/20" "bg-purple-500";
    Stage.mk in_studies "En Estudios" "FileText"
      "bg-yellow-500/10 border-yellow-500/20" "bg-yellow-500";
    Stage.mk results_ready "Resultados Listos / Esperando Revisión" "Eye"
      "bg-orange-500/10 border-orange-500/20" "bg-orange-500";
    Stage.mk in_progress "Atención en Progreso" "Activity"
      "bg-cyan-500/10 border-cyan-500/20" "bg-cyan-500";
    Stage.mk discharge "Alta / Derivación" "UserCheck"
      "bg-green-500/10 border-green-500/20" "bg-green-500" ].

(** [stages.map((stage) => { const stagePatients = patientsByStage[stage.id];
    ... stagePatients.length ... })]: each column with its patients. Reading
    the length of a missing bucket throws; that is [None]. *)
Fixpoint columns_of (grouped : gmap KanbanStage (list Patient.t))
    (cols : list Stage.t) : option (list (Stage.t * list Patient.t)) :=
  match cols with
  | [] => Some []
  | stage :: rest =>
      match grouped !! Stage.id stage with
      | Some stagePatients =>
          match columns_of grouped rest with
          | Some done => Some ((stage, stagePatients) :: done)
          | None => None
          end
      | None => None
      end
  end.

Definition boardColumns (patients : list Patient.t)
    : option (list (Stage.t * list Patient.t)) :=
  match patientsByStage patients with
  | Some grouped => columns_of grouped stages
  | None => None
  end.

(** What a card of the board computes from its patient. *)
Module Card.
Record t := mk {
  timeInStage : number;
  hasAlerts : bool;
  pendingStudies : nat;
  completedStudies : nat;
  inProgressStudies : nat
}.
End Card.

Definition patientCard (now : Z) (patient : Patient.t) : Card.t :=
  let timeInStage := getTimeInStage now patient in
  let hasAlerts := existsb (fun s => Study.hasAlert s) (Patient.studies patient) in
  let pendingStudies :=
    length (List.filter (fun s => negb (Study.status s =? "Completado")%string)
                        (Patient.studies patient)) in
  let completedStudies :=
    length (List.filter (fun s => (Study.status s =? "Completado")%string)
                        (Patient.studies patient)) in
  let inProgressStudies :=
    length (List.filter (fun s => (Study.status s =? "Pendiente Resultado")%string)
                        (Patient.studies patient)) in
  Card.mk timeInStage hasAlerts pendingStudies completedStudies inProgressStudies.

(** Notions for the further properties. *)
Definition is_digit (c : Ascii.ascii) : bool :=
  match c with
  | "0" | "1" | "2" | "3" | "4" | "5" | "6" | "7" | "8" | "9" => true
  | _ => false
  end%char.

Fixpoint all_digits (s : string) : bool :=
  match s with
  | EmptyString => true
  | String c s' => is_digit c && all_digits s'
  end.

(** The four shapes of a formatted duration. *)
Inductive duration_shape (m : Z) : string → Ascii.ascii → string → Prop :=
  | shape_negative :
      m < 0 → duration_shape m "" "-" (show_Z (- m) +:+ "m")
  | shape_minutes :
      0 <= m < 60 → duration_shape m (show_Z m) "m" ""
  | shape_hours :
      60 <= m → m mod 60 = 0 → duration_shape m (show_Z (m / 60)) "h" ""
  | shape_hours_minutes :
      60 <= m → 0 < m mod 60 →
      duration_shape m (show_Z (m / 60)) "h"
                       (String " " (show_Z (m mod 60) +:+ "m")).

(** The ids of the events of the template, each with the timestamp whose
    presence makes the event exist; and the ids of those that exist. *)
Definition study_event_ids (s : Study.t) : list (string * option Z) :=
  [ (Study.id s +:+ "-in-progress", Study.inProgressAt s);
    (Study.id s +:+ "-completed", Study.completedAt s);
    (Study.id s +:+ "-reviewed", Study.reviewedAt s) ].

Definition event_ids (p : Patient.t) (ordered : list Study.t)
    : list (string * option Z) :=
  [ (Patient.id p +:+ "-admission", Some (Patient.admissionTime p));
    (Patient.id p +:+ "-doctor-assigned", Patient.assignedToDoctorAt p);
    (Patient.id p +:+ "-first-study", Patient.firstStudyRequestedAt p) ]
  ++ (ordered ≫= study_event_ids)
  ++ [ (Patient.id p +:+ "-all-completed", Patient.allStudiesCompletedAt p);
       (Patient.id p +:+ "-discharge", Patient.dischargedAt p) ].

Definition existing_ids (l : list (string * option Z)) : list string :=
  omap (fun c => match snd c with Some _ => Some (fst c) | None => None end) l.

(** The characters of a string, last one first. *)
Definition rchars (s : string) : list Ascii.ascii := rev (String.list_ascii_of_string s).

(** A study whose id is the id of [scenario_patient] followed by -all. *)
Definition clashing_study : Study.t :=
  {| Study.id := "p1-all"; Study.patientId := "p1";
     Study.name := "Hemograma"; Study.type := "Laboratorio";
     Study.status := "Completado";
     Study.requestedAt := utc 2024 1 1 10 20 0;
     Study.inProgressAt := None;
     Study.completedAt := Some (utc 2024 1 1 10 40 0);
     Study.reviewedAt := None;
     Study.waitTime := 20;
     Study.hasAlert := false |}.

(** The timestamps of the present checkpoints, in the order in which their
    events are emitted. *)
Definition template_times (p : Patient.t) (studies : list Study.t) : list Z :=
  map snd (reached (template p (sort_by Study.requestedAt studies))).

(** The number of checkpoints that are present among the given ones. *)
Definition count_present (ts : list (option Z)) : nat := length (present ts).

Definition study_events_count (s : Study.t) : nat :=
  count_present [Study.inProgressAt s; Study.completedAt s; Study.reviewedAt s].

(** A patient with one study whose checkpoints are in chronological
    order. *)
Definition orderly_patient : Patient.t :=
  {| Patient.id := "p6"; Patient.name := "Paciente"; Patient.age := 58;
     Patient.gender := "M"; Patient.insurance := "PAMI";
     Patient.diagnosis := "Neumonia"; Patient.severity := "Urgente";
     Patient.room := "Box 6"; Patient.doctorId := "d3"; Patient.phone := "";
     Patient.admissionTime := utc 2024 1 1 10 0 0;
     Patient.status := "discharged";
     Patient.studies := [ready_study_a];
     Patient.doctor := None;
     Patient.assignedToDoctorAt := Some (utc 2024 1 1 10 10 0);
     Patient.firstStudyRequestedAt := Some (utc 2024 1 1 10 20 0);
     Patient.allStudiesCompletedAt := Some (utc 2024 1 1 10 41 0);
     Patient.dischargedAt := Some (utc 2024 1 1 10 55 0) |}.

(** Proof steps for goals about explicit lists: a sublist, a member. *)
Ltac in_lifecycle :=
  repeat first [ apply sublist_nil | apply sublist_skip | apply sublist_cons ].

Ltac among :=
  repeat first [ apply list_elem_of_here | apply list_elem_of_further ].

(** * Properties *)

(** ** Stage classifier *)

Lemma hasStudies_spec {A} (l : list A) : (0 <? length l)%nat = true ↔ l ≠ [].
Proof.
  destruct l as [|x l]; simpl.
  - split; [discriminate | congruence].
  - split; [discriminate | reflexivity].
Qed.

Lemma every_completed (l : list Study.t) :
  forallb (fun s => (Study.status s =? "Completado")%string) l = true
  ↔ Forall is_completed l.
Proof.
  rewrite forallb_forall, Forall_forall. unfold is_completed, Completed.
  split; intros H s Hs.
  - apply String.eqb_eq, H, list_elem_of_In, Hs.
  - apply String.eqb_eq, H, list_elem_of_In, Hs.
Qed.

Lemma some_in_flight (l : list Study.t) :
  existsb (fun s => (Study.status s =? "Solicitado")%string) l
  || existsb (fun s => (Study.status s =? "Pendiente Resultado")%string) l = true
  ↔ Exists in_flight l.
Proof.
  rewrite orb_true_iff, !existsb_exists, Exists_exists.
  unfold in_flight, Requested, PendingResult. split.
  - intros [(s & Hs & E) | (s & Hs & E)]; apply String.eqb_eq in E;
      exists s; rewrite list_elem_of_In; auto.
  - intros (s & Hs & [E | E]); apply list_elem_of_In in Hs;
      [left | right]; exists s; rewrite String.eqb_eq; auto.
Qed.

Lemma truthy_false (o : option Z) : truthy o = false ↔ o = None.
Proof. destruct o; simpl; split; congruence. Qed.

Lemma truthy_true (o : option Z) : truthy o = true ↔ o ≠ None.
Proof. destruct o; simpl; split; congruence. Qed.

Lemma getPatientStage_by_site (p : Patient.t) :
  getPatientStage p = site_stage (getPatientStage_site p).
Proof.
  unfold getPatientStage, getPatientStage_site.
  repeat match goal with |- context [if ?b then _ else _] => destruct b end;
    reflexivity.
Qed.

Lemma getPatientStage_site_condition (p : Patient.t) :
  site_condition p (getPatientStage_site p).
Proof.
  unfold getPatientStage_site.
  destruct (Patient.status p =? "discharged")%string eqn:Hst.
  { apply String.eqb_eq in Hst. exact Hst. }
  apply String.eqb_neq in Hst.
  destruct (truthy (Patient.assignedToDoctorAt p)) eqn:Hdoc; simpl.
  2:{ apply truthy_false in Hdoc. split; assumption. }
  apply truthy_true in Hdoc.
  destruct (0 <? length (Patient.studies p))%nat eqn:Hhas; simpl.
  2:{ repeat split; try assumption.
      destruct (Patient.studies p); [reflexivity | discriminate]. }
  apply hasStudies_spec in Hhas.
  destruct (existsb _ _ || existsb _ _) eqn:Hfl; simpl.
  { apply some_in_flight in Hfl. repeat split; assumption. }
  assert (Hnfl : ¬ Exists in_flight (Patient.studies p)).
  { intros HE. apply some_in_flight in HE. congruence. }
  destruct (forallb _ _) eqn:Hall; simpl.
  - apply every_completed in Hall.
    destruct (truthy (Patient.allStudiesCompletedAt p)) eqn:Hac; simpl.
    + apply truthy_true in Hac. repeat split; assumption.
    + apply truthy_false in Hac. repeat split; assumption.
  - assert (¬ Forall is_completed (Patient.studies p)).
    { intros HF. apply every_completed in HF. congruence. }
    repeat split; assumption.
Qed.

Lemma classifyStage_of_site (p : Patient.t) (r : ReturnSite) :
  site_condition p r → classifyStage p (site_stage r).
Proof.
  destruct r; simpl; intros H; decompose [and] H;
    eauto using classifyStage.
Qed.

Lemma classifyStage_functional (p : Patient.t) (a b : KanbanStage) :
  classifyStage p a → classifyStage p b → a = b.
Proof.
  intros Ha Hb; destruct Ha; inversion Hb; subst;
    solve [reflexivity | contradiction | congruence].
Qed.

Lemma getPatientStage_classifies (p : Patient.t) :
  classifyStage p (getPatientStage p).
Proof.
  rewrite getPatientStage_by_site.
  apply classifyStage_of_site, getPatientStage_site_condition.
Qed.

(** C1. [getPatientStage] is the ordered first-match decision of the stage
    table and is total: the stage it returns is the one the first matching
    row gives (discharged; else no doctor assigned: admission; else no
    study: waiting_doctor; else some study requested or pending:
    in_studies; else all completed and allStudiesCompletedAt absent:
    results_ready; else all completed and allStudiesCompletedAt present:
    in_progress; else the fallback waiting_doctor), no other stage fits the
    table, the result is one of the six stages, and a discharged patient is
    always in stage discharge whatever its other fields are. *)
Theorem getPatientStage_first_match (p : Patient.t) :
  classifyStage p (getPatientStage p) ∧
  (∀ st, classifyStage p st → st = getPatientStage p) ∧
  getPatientStage p ∈ all_stages ∧
  (Patient.status p = "discharged" → getPatientStage p = discharge).
Proof.
  pose proof (getPatientStage_classifies p) as Hrow.
  repeat split.
  - exact Hrow.
  - intros st Hst. exact (classifyStage_functional p _ _ Hst Hrow).
  - unfold all_stages. destruct (getPatientStage p); set_solver.
  - intros Hd. apply (classifyStage_functional p _ _ Hrow).
    constructor; exact Hd.
Qed.

Lemma getPatientStage_first_match_witness :
  Patient.status discharged_patient = "discharged" ∧
  getPatientStage discharged_patient = discharge ∧
  classifyStage scenario_patient (getPatientStage scenario_patient).
Proof.
  split; [reflexivity |]. split.
  - apply (getPatientStage_first_match discharged_patient). reflexivity.
  - apply (getPatientStage_first_match scenario_patient).
Defined.

(** C10. When every study status is one of Requested, PendingResult and
    Completed, the final [return "waiting_doctor"] of [getPatientStage] is
    never the statement that returns; and a patient that is not discharged,
    has a doctor assigned and has a non-empty study list with no study
    Requested or PendingResult has all its studies Completed and leaves
    through the results_ready or the in_progress return. *)
Theorem getPatientStage_fallback_unreachable (p : Patient.t) :
  Forall (fun s => Study.status s ∈ [Requested; PendingResult; Completed])
         (Patient.studies p) →
  getPatientStage p = site_stage (getPatientStage_site p) ∧
  getPatientStage_site p ≠ ret_fallback ∧
  (Patient.status p ≠ "discharged" →
   Patient.assignedToDoctorAt p ≠ None →
   Patient.studies p ≠ [] →
   ¬ Exists in_flight (Patient.studies p) →
   Forall is_completed (Patient.studies p) ∧
   (getPatientStage_site p = ret_results_ready ∨
    getPatientStage_site p = ret_in_progress)).
Proof.
  intros Henum.
  assert (Hall : ¬ Exists in_flight (Patient.studies p) →
                 Forall is_completed (Patient.studies p)).
  { intros Hnfl. rewrite Forall_forall in Henum |- *. intros s Hs.
    specialize (Henum s Hs).
    assert (¬ in_flight s) as Hs'.
    { intros Hf. apply Hnfl, Exists_exists. eauto. }
    unfold in_flight, is_completed in *.
    rewrite !elem_of_cons, elem_of_nil in Henum. tauto. }
  pose proof (getPatientStage_site_condition p) as Hsite.
  split; [apply getPatientStage_by_site |]. split.
  - intros E. rewrite E in Hsite. simpl in Hsite. tauto.
  - intros Hst Hdoc Hne Hnfl. split; [auto |].
    destruct (getPatientStage_site p); simpl in Hsite; tauto.
Qed.

Lemma getPatientStage_fallback_unreachable_witness :
  getPatientStage_site scenario_patient ≠ ret_fallback.
Proof.
  apply (getPatientStage_fallback_unreachable scenario_patient).
  repeat constructor.
Defined.

(** Without the restriction on the statuses the fallback return is taken. *)
Example fallback_taken_on_foreign_status :
  getPatientStage_site odd_patient = ret_fallback ∧
  getPatientStage odd_patient = waiting_doctor.
Proof. split; reflexivity. Qed.

(** ** Grouping by stage *)

Lemma grouped_init_lookup (st : KanbanStage) : grouped_init !! st = Some [].
Proof. destruct st; reflexivity. Qed.

Lemma in_stage_snoc (st : KanbanStage) (l : list Patient.t) (p : Patient.t) :
  in_stage st (l ++ [p]) =
  if decide (getPatientStage p = st) then in_stage st l ++ [p] else in_stage st l.
Proof.
  unfold in_stage. rewrite filter_app, filter_cons, filter_nil.
  destruct (decide (getPatientStage p = st)); [reflexivity | apply app_nil_r].
Qed.

(** The loop invariant of the [forEach]: after the patients [done] every
    key is bound to the patients of [done] in that stage. *)
Lemma forEach_push_invariant (rest done : list Patient.t)
    (grouped : gmap KanbanStage (list Patient.t)) :
  (∀ st, grouped !! st = Some (in_stage st done)) →
  ∃ grouped', forEach_push rest grouped = Some grouped' ∧
              ∀ st, grouped' !! st = Some (in_stage st (done ++ rest)).
Proof.
  revert done grouped. induction rest as [|p rest IH]; intros done grouped Hinv.
  - exists grouped. rewrite app_nil_r. split; [reflexivity | exact Hinv].
  - simpl. unfold push_patient. rewrite Hinv.
    destruct (IH (done ++ [p])
                 (<[getPatientStage p := in_stage (getPatientStage p) done ++ [p]]> grouped))
      as (g' & Hrun & Hg').
    + intros st. rewrite in_stage_snoc, lookup_insert.
      destruct (decide (getPatientStage p = st)) as [<- | Hne].
      * reflexivity.
      * apply Hinv.
    + exists g'. split; [exact Hrun |].
      intros st. rewrite Hg', <- app_assoc. reflexivity.
Qed.

Lemma in_stage_all (patients : list Patient.t) :
  concat (map (fun st => in_stage st patients) all_stages) ≡ₚ patients.
Proof.
  unfold all_stages, in_stage. simpl. rewrite app_nil_r.
  induction patients as [|p ps IH]; [reflexivity |].
  rewrite !filter_cons.
  destruct (getPatientStage p); simpl;
    rewrite <- ?Permutation_middle; constructor; exact IH.
Qed.

(** C7. [patientsByStage] is a stable partition of the patient list by
    [getPatientStage]: it never throws, all six stage keys are bound (to a
    possibly empty list), the six lists together are a permutation of the
    input, lists under different keys share no patient, and the list under a
    key holds exactly the patients of that stage in their input order. *)
Theorem patientsByStage_stable_partition (patients : list Patient.t) :
  ∃ grouped,
    patientsByStage patients = Some grouped ∧
    (∀ st, is_Some (grouped !! st)) ∧
    buckets grouped ≡ₚ patients ∧
    (∀ st1 st2 l1 l2,
        st1 ≠ st2 → grouped !! st1 = Some l1 → grouped !! st2 = Some l2 →
        ∀ p, p ∈ l1 → p ∉ l2) ∧
    (∀ st l,
        grouped !! st = Some l →
        (∀ p, p ∈ l → p ∈ patients ∧ getPatientStage p = st) ∧
        sublist l patients ∧
        l = in_stage st patients).
Proof.
  destruct (forEach_push_invariant patients [] grouped_init) as (g & Hrun & Hg).
  { intros st. rewrite grouped_init_lookup. reflexivity. }
  simpl in Hg.
  assert (Hmem : ∀ st p, p ∈ in_stage st patients →
                         p ∈ patients ∧ getPatientStage p = st).
  { intros st p Hp. unfold in_stage in Hp.
    apply list_elem_of_filter in Hp. tauto. }
  exists g. split; [exact Hrun |]. split; [| split; [| split]].
  - intros st. rewrite Hg. eauto.
  - unfold buckets.
    rewrite (map_ext _ (fun st => in_stage st patients)).
    + apply in_stage_all.
    + intros st. rewrite Hg. reflexivity.
  - intros st1 st2 l1 l2 Hne H1 H2 p Hp1 Hp2.
    rewrite Hg in H1, H2. injection H1 as <-. injection H2 as <-.
    apply Hmem in Hp1, Hp2. destruct Hp1 as [_ E1], Hp2 as [_ E2]. congruence.
  - intros st l Hl. rewrite Hg in Hl. injection Hl as <-.
    split; [apply Hmem |]. split; [| reflexivity].
    unfold in_stage. apply sublist_filter.
Qed.

Lemma patientsByStage_stable_partition_witness :
  ∃ grouped,
    patientsByStage [scenario_patient; discharged_patient; odd_patient] = Some grouped ∧
    grouped !! in_progress = Some [scenario_patient] ∧
    grouped !! discharge = Some [discharged_patient] ∧
    grouped !! waiting_doctor = Some [odd_patient] ∧
    grouped !! admission = Some [].
Proof.
  destruct (patientsByStage_stable_partition
              [scenario_patient; discharged_patient; odd_patient])
    as (g & Hrun & Hkeys & _ & _ & Hst).
  exists g. split; [exact Hrun |].
  repeat split.
  - destruct (Hkeys in_progress) as [l Hl]. rewrite Hl.
    f_equal. apply (Hst _ _ Hl).
  - destruct (Hkeys discharge) as [l Hl]. rewrite Hl.
    f_equal. apply (Hst _ _ Hl).
  - destruct (Hkeys waiting_doctor) as [l Hl]. rewrite Hl.
    f_equal. apply (Hst _ _ Hl).
  - destruct (Hkeys admission) as [l Hl]. rewrite Hl.
    f_equal. apply (Hst _ _ Hl).
Defined.

(** ** Time in the current stage *)

Lemma Math_max_nonempty (l : list Z) :
  l ≠ [] → ∃ m, Math_max l = Num m ∧ is_max m l.
Proof.
  induction l as [|x l IH]; [congruence | intros _].
  destruct l as [|y l].
  - exists x. simpl. split; [reflexivity |].
    split; [apply list_elem_of_here | repeat constructor; lia].
  - destruct IH as (m & Hm & Hin & Hle); [discriminate |].
    exists (Z.max x m). split.
    + change (Math_max (x :: y :: l)) with
        (match Math_max (y :: l) with
         | Num m => Num (Z.max x m)
         | Infinity => Infinity
         | NegInfinity => Num x
         end).
      rewrite Hm. reflexivity.
    + split.
      * destruct (Z.max_spec x m) as [[_ ->] | [_ ->]].
        -- apply list_elem_of_further, Hin.
        -- apply list_elem_of_here.
      * constructor; [lia |].
        eapply Forall_impl; [exact Hle |]. simpl. intros; lia.
Qed.

Lemma results_ready_has_studies (p : Patient.t) :
  getPatientStage p = results_ready → Patient.studies p ≠ [].
Proof.
  intros E. pose proof (getPatientStage_classifies p) as H.
  rewrite E in H. inversion H. assumption.
Qed.

(** C6. [getTimeInStage] returns, in whole minutes rounded down: in stage
    admission, the time since admissionTime; in waiting_doctor, since
    assignedToDoctorAt if present, else since admissionTime; in in_studies,
    since firstStudyRequestedAt if present, else since admissionTime; in
    results_ready, since the greatest completedAt over all studies, a study
    without completedAt counting as time value 0 (the epoch); in
    in_progress, since allStudiesCompletedAt if present, else since
    admissionTime; in discharge, 0. *)
Theorem getTimeInStage_by_stage (now : Z) (p : Patient.t) :
  (getPatientStage p = admission →
   getTimeInStage now p = Num (minutes (Patient.admissionTime p) now)) ∧
  (getPatientStage p = waiting_doctor →
   getTimeInStage now p =
   Num (minutes (match Patient.assignedToDoctorAt p with
                 | Some t => t | None => Patient.admissionTime p end) now)) ∧
  (getPatientStage p = in_studies →
   getTimeInStage now p =
   Num (minutes (match Patient.firstStudyRequestedAt p with
                 | Some t => t | None => Patient.admissionTime p end) now)) ∧
  (getPatientStage p = results_ready →
   ∃ lastCompleted,
     is_max lastCompleted
       (map (fun s => match Study.completedAt s with Some t => t | None => 0 end)
            (Patient.studies p)) ∧
     getTimeInStage now p = Num (minutes lastCompleted now)) ∧
  (getPatientStage p = in_progress →
   getTimeInStage now p =
   Num (minutes (match Patient.allStudiesCompletedAt p with
                 | Some t => t | None => Patient.admissionTime p end) now)) ∧
  (getPatientStage p = discharge → getTimeInStage now p = Num 0).
Proof.
  unfold getTimeInStage, minutes.
  split; [| split; [| split; [| split; [| split]]]];
    intros E; rewrite E; try reflexivity.
  apply results_ready_has_studies in E as Hne.
  destruct (Math_max_nonempty
              (map (fun s => default 0 (Study.completedAt s)) (Patient.studies p)))
    as (m & Hm & Hmax).
  { destruct (Patient.studies p); [congruence | discriminate]. }
  exists m. split; [exact Hmax |].
  rewrite Hm. reflexivity.
Qed.

Lemma getTimeInStage_by_stage_witness :
  getPatientStage scenario_patient = in_progress ∧
  getTimeInStage scenario_now scenario_patient = Num 20 ∧
  getPatientStage (ready_patient [ready_study_a; ready_study_b]) = results_ready ∧
  ∃ lastCompleted,
    is_max lastCompleted [utc 2024 1 1 10 40 0; 0] ∧
    getTimeInStage scenario_now (ready_patient [ready_study_a; ready_study_b])
    = Num (minutes lastCompleted scenario_now).
Proof.
  split; [reflexivity |]. split.
  - apply (getTimeInStage_by_stage scenario_now scenario_patient). reflexivity.
  - split; [reflexivity |].
    apply (getTimeInStage_by_stage scenario_now
             (ready_patient [ready_study_a; ready_study_b])).
    reflexivity.
Defined.

(** In stage results_ready a study without completedAt enters the maximum
    as the epoch: when no study has one, the time in stage is the time
    since 1970. *)
Example getTimeInStage_epoch :
  getPatientStage (ready_patient [ready_study_b]) = results_ready ∧
  getTimeInStage scenario_now (ready_patient [ready_study_b])
  = Num (scenario_now / 60000).
Proof. split; reflexivity. Qed.

(** ** Time statistics *)

Lemma foldl_accumulate {A} (step : Z → A → Z) (f : A → Z) (l : list A) (a : Z) :
  (∀ acc x, step acc x = acc + f x) → foldl step a l = a + sumZ f l.
Proof.
  intros Hstep. revert a. induction l as [|x l IH]; intros a; simpl.
  - lia.
  - rewrite IH, Hstep. lia.
Qed.

Lemma sumZ_filter {A} (P : A → Prop) `{!∀ x, Decision (P x)} (f : A → Z) (l : list A) :
  (∀ x, ¬ P x → f x = 0) → sumZ f (filter P l) = sumZ f l.
Proof.
  intros Hzero. induction l as [|x l IH]; [reflexivity |].
  rewrite filter_cons. destruct (decide (P x)) as [HP | HP]; simpl.
  - rewrite IH. reflexivity.
  - rewrite IH, (Hzero x HP). reflexivity.
Qed.

Lemma sumZ_nonneg {A} (f : A → Z) (l : list A) :
  Forall (fun x => 0 <= f x) l → 0 <= sumZ f l.
Proof.
  induction 1 as [|x l Hx _ IH]; simpl; lia.
Qed.

Lemma minutes_nonneg (from to : Z) : from <= to → 0 <= minutes from to.
Proof. intros H. unfold minutes. apply Z.div_pos; lia. Qed.

Lemma count_completed (studies : list Study.t) :
  length (List.filter (fun s => truthy (Study.completedAt s)) studies)
  = length (with_completedAt studies).
Proof.
  unfold with_completedAt. induction studies as [|s l IH]; [reflexivity |].
  simpl. destruct (Study.completedAt s) as [c|] eqn:E; simpl.
  - rewrite filter_cons_True by (rewrite E; eauto). simpl. congruence.
  - rewrite filter_cons_False by (rewrite E; intros [? ?]; discriminate).
    exact IH.
Qed.

Lemma stats_totalTime (now : Z) (p : Patient.t) (studies : list Study.t) :
  PatientTimeStats.totalTime (calculatePatientTimeStats now p studies)
  = minutes (Patient.admissionTime p)
            (match Patient.dischargedAt p with Some d => d | None => now end).
Proof. reflexivity. Qed.

Lemma stats_waitingForStudies (now : Z) (p : Patient.t) (studies : list Study.t) :
  PatientTimeStats.waitingForStudies (calculatePatientTimeStats now p studies)
  = sumZ (study_wait now) studies.
Proof.
  simpl. rewrite (foldl_accumulate _ (study_wait now)); [lia |].
  intros acc s. reflexivity.
Qed.

Lemma stats_waitingForReview (now : Z) (p : Patient.t) (studies : list Study.t) :
  PatientTimeStats.waitingForReview (calculatePatientTimeStats now p studies)
  = sumZ (review_wait now) studies.
Proof.
  simpl. rewrite (foldl_accumulate _ (review_wait now)); [lia |].
  intros acc s. unfold review_wait, minutes.
  destruct (Study.completedAt s), (Study.reviewedAt s); lia.
Qed.

Lemma stats_studiesInProgress (now : Z) (p : Patient.t) (studies : list Study.t) :
  PatientTimeStats.studiesInProgress (calculatePatientTimeStats now p studies)
  = sumZ processing_time studies.
Proof.
  simpl. rewrite (foldl_accumulate _ processing_time); [lia |].
  intros acc s. unfold processing_time, minutes.
  destruct (Study.inProgressAt s), (Study.completedAt s); lia.
Qed.

(** C4. [calculatePatientTimeStats] at the instant [now], every difference
    in whole minutes rounded down: totalTime is from admissionTime to
    dischargedAt if present, else to now; waitingForStudies is the sum over
    all studies of the time from requestedAt to completedAt if present,
    else to now; waitingForReview is the sum over the studies with
    completedAt of the time from completedAt to reviewedAt if present, else
    to now; studiesInProgress is the sum over the studies with both
    inProgressAt and completedAt of the time between them;
    averageStudyTime is waitingForStudies divided (rounding down) by the
    number of studies with completedAt, or 0 when there is none. *)
Theorem calculatePatientTimeStats_values (now : Z) (p : Patient.t)
    (studies : list Study.t) :
  let stats := calculatePatientTimeStats now p studies in
  PatientTimeStats.totalTime stats
  = minutes (Patient.admissionTime p)
            (match Patient.dischargedAt p with Some d => d | None => now end) ∧
  PatientTimeStats.waitingForStudies stats
  = sumZ (fun s => minutes (Study.requestedAt s)
                     (match Study.completedAt s with Some c => c | None => now end))
         studies ∧
  PatientTimeStats.waitingForReview stats
  = sumZ (review_wait now) (with_completedAt studies) ∧
  PatientTimeStats.studiesInProgress stats
  = sumZ processing_time (with_inProgressAt_and_completedAt studies) ∧
  PatientTimeStats.averageStudyTime stats
  = match length (with_completedAt studies) with
    | O => 0
    | S _ as n => PatientTimeStats.waitingForStudies stats / Z.of_nat n
    end.
Proof.
  intros stats. subst stats.
  split; [apply stats_totalTime |].
  split; [apply stats_waitingForStudies |].
  split; [| split].
  - rewrite stats_waitingForReview. symmetry. apply sumZ_filter.
    intros s Hs. unfold review_wait.
    destruct (Study.completedAt s); [exfalso; eauto | reflexivity].
  - rewrite stats_studiesInProgress. symmetry. apply sumZ_filter.
    intros s Hs. unfold processing_time.
    destruct (Study.inProgressAt s), (Study.completedAt s);
      try reflexivity; exfalso; eauto.
  - rewrite <- count_completed.
    unfold calculatePatientTimeStats, PatientTimeStats.averageStudyTime,
      PatientTimeStats.waitingForStudies.
    destruct (length _); reflexivity.
Qed.

(** Two timestamps that are present, one after the other in a monotonic
    lifecycle, are in order; and a present timestamp of a lifecycle bounded
    by [now] is bounded by [now]. *)
Lemma present_ordered (l : list (option Z)) (x y : Z) :
  Sorted Z.le (present l) → [Some x; Some y] `sublist_of` l → x <= y.
Proof.
  intros HS. apply Sorted_StronglySorted in HS; [| intros ? ? ?; lia].
  induction l as [|a l IH]; intros Hsub; inversion Hsub; subst.
  - simpl in HS. apply StronglySorted_inv in HS as [_ HF].
    rewrite Forall_forall in HF. apply HF.
    apply list_elem_of_omap. exists (Some y). split; [| reflexivity].
    eapply sublist_subseteq; [eassumption | apply list_elem_of_here].
  - apply IH; [| assumption].
    unfold present in *. simpl in HS. destruct a; [| exact HS].
    apply StronglySorted_inv in HS as [HS _]. exact HS.
Qed.

Lemma present_bounded (now : Z) (l : list (option Z)) (x : Z) :
  Forall (fun t => t <= now) (present l) → Some x ∈ l → x <= now.
Proof.
  intros HF Hx. rewrite Forall_forall in HF. apply HF.
  apply list_elem_of_omap. exists (Some x). split; [exact Hx | reflexivity].
Qed.

Lemma study_wait_nonneg (now : Z) (p : Patient.t) (s : Study.t) :
  Sorted Z.le (study_lifecycle p s) →
  Forall (fun t => t <= now) (study_lifecycle p s) →
  0 <= study_wait now s.
Proof.
  unfold study_lifecycle, study_wait. intros HS HF. apply minutes_nonneg.
  destruct (Study.completedAt s) as [c|].
  - apply (present_ordered _ _ _ HS). in_lifecycle.
  - apply (present_bounded _ _ _ HF). among.
Qed.

Lemma review_wait_nonneg (now : Z) (p : Patient.t) (s : Study.t) :
  Sorted Z.le (study_lifecycle p s) →
  Forall (fun t => t <= now) (study_lifecycle p s) →
  0 <= review_wait now s.
Proof.
  unfold study_lifecycle, review_wait. intros HS HF.
  destruct (Study.completedAt s) as [c|]; [| lia]. apply minutes_nonneg.
  destruct (Study.reviewedAt s) as [r|].
  - apply (present_ordered _ _ _ HS). in_lifecycle.
  - apply (present_bounded _ _ _ HF). among.
Qed.

Lemma processing_time_nonneg (p : Patient.t) (s : Study.t) :
  Sorted Z.le (study_lifecycle p s) → 0 <= processing_time s.
Proof.
  unfold study_lifecycle, processing_time. intros HS.
  destruct (Study.inProgressAt s) as [i|]; [| lia].
  destruct (Study.completedAt s) as [c|]; [| lia]. apply minutes_nonneg.
  apply (present_ordered _ _ _ HS). in_lifecycle.
Qed.

(** C9. When the timestamps of a patient and of its studies that are
    present are monotonic along the lifecycle (admissionTime,
    assignedToDoctorAt, firstStudyRequestedAt, then each study's
    requestedAt, inProgressAt, completedAt, reviewedAt, then
    allStudiesCompletedAt, dischargedAt) and none of them is later than
    [now], [calculatePatientTimeStats] returns a totalTime, a
    waitingForStudies, a waitingForReview and a studiesInProgress that are
    all at least 0. *)
Theorem calculatePatientTimeStats_nonneg (now : Z) (p : Patient.t)
    (studies : list Study.t) :
  monotonic p studies →
  not_in_future now p studies →
  0 <= PatientTimeStats.totalTime (calculatePatientTimeStats now p studies) ∧
  0 <= PatientTimeStats.waitingForStudies (calculatePatientTimeStats now p studies) ∧
  0 <= PatientTimeStats.waitingForReview (calculatePatientTimeStats now p studies) ∧
  0 <= PatientTimeStats.studiesInProgress (calculatePatientTimeStats now p studies).
Proof.
  intros [HSp HSs] [HFp HFs].
  rewrite stats_totalTime, stats_waitingForStudies, stats_waitingForReview,
    stats_studiesInProgress.
  rewrite Forall_forall in HSs, HFs.
  split; [| split; [| split]].
  - apply minutes_nonneg. unfold patient_lifecycle in *.
    destruct (Patient.dischargedAt p) as [d|].
    + apply (present_ordered _ _ _ HSp). in_lifecycle.
    + apply (present_bounded _ _ _ HFp). among.
  - apply sumZ_nonneg, Forall_forall. intros s Hs.
    apply (study_wait_nonneg now p); auto.
  - apply sumZ_nonneg, Forall_forall. intros s Hs.
    apply (review_wait_nonneg now p); auto.
  - apply sumZ_nonneg, Forall_forall. intros s Hs.
    apply (processing_time_nonneg p); auto.
Qed.

Lemma calculatePatientTimeStats_nonneg_witness :
  0 <= PatientTimeStats.totalTime
         (calculatePatientTimeStats scenario_now (ready_patient [ready_study_a; ready_study_b])
            [ready_study_a; ready_study_b]) ∧
  0 <= PatientTimeStats.waitingForStudies
         (calculatePatientTimeStats scenario_now (ready_patient [ready_study_a; ready_study_b])
            [ready_study_a; ready_study_b]) ∧
  0 <= PatientTimeStats.waitingForReview
         (calculatePatientTimeStats scenario_now (ready_patient [ready_study_a; ready_study_b])
            [ready_study_a; ready_study_b]) ∧
  0 <= PatientTimeStats.studiesInProgress
         (calculatePatientTimeStats scenario_now (ready_patient [ready_study_a; ready_study_b])
            [ready_study_a; ready_study_b]).
Proof.
  apply (calculatePatientTimeStats_nonneg scenario_now
           (ready_patient [ready_study_a; ready_study_b])
           [ready_study_a; ready_study_b]).
  - unfold monotonic. apply (bool_decide_unpack _). vm_compute. exact I.
  - unfold not_in_future. apply (bool_decide_unpack _). vm_compute. exact I.
Defined.

(** ** The stable sort *)

Section StableSortFacts.
Context {A : Type} (key : A → Z).

Lemma insert_by_perm (x : A) (l : list A) : insert_by key x l ≡ₚ x :: l.
Proof.
  induction l as [|y l IH]; simpl; [reflexivity |].
  destruct (key x <=? key y); [reflexivity |].
  rewrite IH. apply Permutation_swap.
Qed.

Lemma sort_by_perm (l : list A) : sort_by key l ≡ₚ l.
Proof.
  induction l as [|x l IH]; simpl; [reflexivity |].
  rewrite insert_by_perm, IH. reflexivity.
Qed.

Lemma insert_by_sorted (x : A) (l : list A) :
  StronglySorted (fun a b => key a <= key b) l →
  StronglySorted (fun a b => key a <= key b) (insert_by key x l).
Proof.
  induction 1 as [|y l Hl IH Hy]; simpl.
  - repeat constructor.
  - destruct (key x <=? key y) eqn:E.
    + apply Z.leb_le in E. constructor; [constructor; assumption |].
      constructor; [exact E |].
      eapply Forall_impl; [exact Hy |]. simpl. intros; lia.
    + apply Z.leb_gt in E. constructor; [exact IH |].
      rewrite insert_by_perm. constructor; [lia | exact Hy].
Qed.

Lemma sort_by_sorted (l : list A) :
  StronglySorted (fun a b => key a <= key b) (sort_by key l).
Proof.
  induction l as [|x l IH]; simpl; [constructor |].
  apply insert_by_sorted, IH.
Qed.

(** An element not above any element of the list goes to the front. *)
Lemma insert_by_least (x : A) (l : list A) :
  Forall (fun y => key x <= key y) l → insert_by key x l = x :: l.
Proof.
  destruct 1 as [|y l Hy _]; simpl; [reflexivity |].
  apply Z.leb_le in Hy. rewrite Hy. reflexivity.
Qed.

Lemma sort_by_least (x : A) (l : list A) :
  Forall (fun y => key x <= key y) l → sort_by key (x :: l) = x :: sort_by key l.
Proof.
  intros H. simpl. apply insert_by_least.
  rewrite sort_by_perm. exact H.
Qed.

(** Stability: elements with the same key keep their relative order. *)
Lemma insert_by_stable (k : Z) (x : A) (l : list A) :
  StronglySorted (fun a b => key a <= key b) l →
  filter (fun a => key a = k) (insert_by key x l)
  = filter (fun a => key a = k) (x :: l).
Proof.
  induction 1 as [|y l Hl IH Hy]; simpl; [reflexivity |].
  destruct (key x <=? key y) eqn:E; [reflexivity |].
  apply Z.leb_gt in E.
  rewrite (filter_cons _ y), IH, !filter_cons.
  destruct (decide (key y = k)), (decide (key x = k)); try reflexivity.
  lia.
Qed.

Lemma sort_by_stable (k : Z) (l : list A) :
  filter (fun a => key a = k) (sort_by key l) = filter (fun a => key a = k) l.
Proof.
  induction l as [|x l IH]; simpl; [reflexivity |].
  rewrite insert_by_stable by apply sort_by_sorted.
  rewrite !filter_cons, IH. reflexivity.
Qed.

End StableSortFacts.

(** ** Timeline: what is emitted, and in which order *)

Lemma reached_app (l k : list (Event.kind * option Z)) :
  reached (l ++ k) = reached l ++ reached k.
Proof. unfold reached. apply omap_app. Qed.

Lemma push_checkpoint_kinds ts id ty title descr (st : Emission) :
  map kind_and_time (push_checkpoint ts id ty title descr st)
  = map kind_and_time (events st) ++ reached [(ty, ts)].
Proof.
  unfold push_checkpoint. destruct ts as [t|]; simpl.
  - rewrite map_app. reflexivity.
  - rewrite app_nil_r. reflexivity.
Qed.

Lemma checkpoint_kinds ts id ty title descr (st : Emission) :
  map kind_and_time (events (checkpoint ts id ty title descr st))
  = map kind_and_time (events st) ++ reached [(ty, ts)].
Proof. apply push_checkpoint_kinds. Qed.

Lemma studyEvents_kinds (st : Emission) (s : Study.t) :
  map kind_and_time (events (studyEvents st s))
  = map kind_and_time (events st) ++ reached (study_checkpoints s).
Proof.
  unfold studyEvents, study_checkpoints.
  rewrite !checkpoint_kinds, <- !app_assoc, <- !reached_app. reflexivity.
Qed.

Lemma foldl_studyEvents_kinds (l : list Study.t) (st : Emission) :
  map kind_and_time (events (foldl studyEvents st l))
  = map kind_and_time (events st) ++ reached (l ≫= study_checkpoints).
Proof.
  revert st. induction l as [|s l IH]; intros st.
  - simpl. rewrite app_nil_r. reflexivity.
  - rewrite bind_cons, reached_app, app_assoc, <- studyEvents_kinds.
    apply IH.
Qed.

Lemma emittedEvents_kinds (p : Patient.t) (studies : list Study.t) :
  map kind_and_time (emittedEvents p studies)
  = reached (template p (sort_by Study.requestedAt studies)).
Proof.
  unfold emittedEvents, template.
  rewrite push_checkpoint_kinds, checkpoint_kinds, foldl_studyEvents_kinds,
    !checkpoint_kinds.
  rewrite !reached_app, <- !app_assoc.
  destruct (Patient.assignedToDoctorAt p), (Patient.firstStudyRequestedAt p),
    (Patient.allStudiesCompletedAt p), (Patient.dischargedAt p);
    reflexivity.
Qed.

(** ** Timeline: the running cursor *)

Lemma last_timestamp_snoc (prev : Z) (l : list TimelineEvent.t) (e : TimelineEvent.t) :
  last_timestamp prev (l ++ [e]) = TimelineEvent.timestamp e.
Proof. unfold last_timestamp. rewrite foldl_app. reflexivity. Qed.

Lemma chained_from_snoc (prev : Z) (l : list TimelineEvent.t) (e : TimelineEvent.t) :
  chained_from prev l →
  TimelineEvent.duration e
  = minutes (last_timestamp prev l) (TimelineEvent.timestamp e) →
  chained_from prev (l ++ [e]).
Proof.
  revert prev. induction l as [|x l IH]; intros prev; simpl.
  - intros _ He. split; [exact He | exact I].
  - intros [Hx Hl] He. split; [exact Hx |]. apply IH; assumption.
Qed.

Lemma chained_from_lookup (prev : Z) (l : list TimelineEvent.t) (i : nat)
    (a b : TimelineEvent.t) :
  chained_from prev l → l !! i = Some a → l !! S i = Some b →
  TimelineEvent.duration b
  = minutes (TimelineEvent.timestamp a) (TimelineEvent.timestamp b).
Proof.
  revert prev i. induction l as [|x l IH]; intros prev i; [discriminate |].
  intros [_ Hl] Ha Hb. destruct i as [|i].
  - injection Ha as ->. destruct l as [|y l]; [discriminate |].
    injection Hb as ->. apply Hl.
  - exact (IH _ i Hl Ha Hb).
Qed.

Lemma push_checkpoint_ok (p : Patient.t) ts id ty title descr (st : Emission) :
  cursor_ok p st →
  (∃ rest, push_checkpoint ts id ty title descr st = admissionEvent p :: rest) ∧
  chained_from (Patient.admissionTime p) (push_checkpoint ts id ty title descr st).
Proof.
  intros ([rest Hhd] & Hch & Hcur). unfold push_checkpoint.
  destruct ts as [t|]; [| eauto]. split.
  - exists (rest ++ [TimelineEvent.mk id t ty title descr
                       (calculateDuration (previousTimestamp st) t)]).
    rewrite Hhd. reflexivity.
  - apply chained_from_snoc; [exact Hch |]. rewrite <- Hcur. reflexivity.
Qed.

Lemma checkpoint_ok (p : Patient.t) ts id ty title descr (st : Emission) :
  cursor_ok p st → cursor_ok p (checkpoint ts id ty title descr st).
Proof.
  intros Hst. destruct (push_checkpoint_ok p ts id ty title descr st Hst) as [Hhd Hch].
  split; [exact Hhd |]. split; [exact Hch |].
  destruct Hst as (_ & _ & Hcur). unfold checkpoint, push_checkpoint.
  destruct ts as [t|]; cbn [events previousTimestamp].
  - rewrite last_timestamp_snoc. reflexivity.
  - exact Hcur.
Qed.

Lemma studyEvents_ok (p : Patient.t) (st : Emission) (s : Study.t) :
  cursor_ok p st → cursor_ok p (studyEvents st s).
Proof. intros Hst. unfold studyEvents. auto using checkpoint_ok. Qed.

Lemma foldl_studyEvents_ok (p : Patient.t) (l : list Study.t) (st : Emission) :
  cursor_ok p st → cursor_ok p (foldl studyEvents st l).
Proof.
  revert st. induction l as [|s l IH]; intros st Hst; simpl; [exact Hst |].
  apply IH, studyEvents_ok, Hst.
Qed.

Lemma emittedEvents_ok (p : Patient.t) (studies : list Study.t) :
  (∃ rest, emittedEvents p studies = admissionEvent p :: rest) ∧
  chained_from (Patient.admissionTime p) (emittedEvents p studies).
Proof.
  unfold emittedEvents. apply push_checkpoint_ok.
  apply checkpoint_ok, foldl_studyEvents_ok, checkpoint_ok, checkpoint_ok.
  split; [exists []; reflexivity |]. split; [| reflexivity].
  simpl. unfold minutes. rewrite Z.sub_diag. split; [reflexivity | exact I].
Qed.

Lemma checkpoint_times_perm (p : Patient.t) (l k : list Study.t) :
  l ≡ₚ k → checkpoint_times p l ≡ₚ checkpoint_times p k.
Proof.
  intros H. unfold checkpoint_times, template, reached.
  apply Permutation_map. rewrite H. reflexivity.
Qed.

Lemma emittedEvents_times (p : Patient.t) (studies : list Study.t) :
  map TimelineEvent.timestamp (emittedEvents p studies)
  ≡ₚ checkpoint_times p studies.
Proof.
  rewrite <- (checkpoint_times_perm p _ _ (sort_by_perm Study.requestedAt studies)).
  unfold checkpoint_times. rewrite <- emittedEvents_kinds, map_map.
  reflexivity.
Qed.

(** C2. In [generatePatientTimeline] the events are emitted in the order
    of the template: the admission event first, with duration 0; then
    doctor assignment, first study request, for every study in ascending
    order of requestedAt its in-progress, completed and reviewed events,
    then all-studies-completed and discharge, each one exactly when its
    timestamp is present. Every emitted event after the first carries as
    duration the whole minutes, rounded down, from the timestamp of the
    event emitted just before it to its own timestamp (one cursor for the
    whole patient, negative when the timestamps go backwards), and the
    final sort only reorders these events. *)
Theorem generatePatientTimeline_emission (p : Patient.t) (studies : list Study.t) :
  let ordered := sort_by Study.requestedAt studies in
  let emitted := emittedEvents p studies in
  ordered ≡ₚ studies ∧
  StronglySorted (fun a b => Study.requestedAt a <= Study.requestedAt b) ordered ∧
  map kind_and_time emitted = reached (template p ordered) ∧
  (∃ first rest,
      emitted = first :: rest ∧
      TimelineEvent.type first = Event.admission ∧
      TimelineEvent.timestamp first = Patient.admissionTime p ∧
      TimelineEvent.duration first = 0) ∧
  (∀ i prev e,
      emitted !! i = Some prev → emitted !! S i = Some e →
      TimelineEvent.duration e
      = (TimelineEvent.timestamp e - TimelineEvent.timestamp prev) / 60000) ∧
  generatePatientTimeline p studies ≡ₚ emitted.
Proof.
  intros ordered emitted. subst ordered emitted.
  destruct (emittedEvents_ok p studies) as [[rest Hhd] Hch].
  split; [apply sort_by_perm |].
  split; [apply sort_by_sorted |].
  split; [apply emittedEvents_kinds |].
  split; [| split].
  - exists (admissionEvent p), rest. repeat split. exact Hhd.
  - intros i prev e Hprev He.
    exact (chained_from_lookup _ _ i prev e Hch Hprev He).
  - apply sort_by_perm.
Qed.

Lemma generatePatientTimeline_emission_witness :
  ∃ prev e,
    emittedEvents scenario_patient [scenario_study] !! 5%nat = Some prev ∧
    emittedEvents scenario_patient [scenario_study] !! 6%nat = Some e ∧
    TimelineEvent.type prev = Event.study_reviewed ∧
    TimelineEvent.type e = Event.all_completed ∧
    TimelineEvent.duration e
    = (TimelineEvent.timestamp e - TimelineEvent.timestamp prev) / 60000 ∧
    TimelineEvent.duration e = -5.
Proof.
  destruct (generatePatientTimeline_emission scenario_patient [scenario_study])
    as (_ & _ & _ & _ & Hdur & _).
  eexists _, _. split; [reflexivity |]. split; [reflexivity |].
  split; [reflexivity |]. split; [reflexivity |].
  split; [| reflexivity].
  apply (Hdur 5%nat); reflexivity.
Defined.

(** The cursor is shared by all studies: with two interleaved studies the
    second study's event is measured from the first study's last event and
    comes out negative. *)
Example interleaved_studies_negative_duration :
  map (fun e => (TimelineEvent.type e, TimelineEvent.duration e))
      (emittedEvents (ready_patient [])
         [ready_study_a;
          {| Study.id := "s6"; Study.patientId := "p4";
             Study.name := "Glucemia"; Study.type := "Laboratorio";
             Study.status := "Completado";
             Study.requestedAt := utc 2024 1 1 10 21 0;
             Study.inProgressAt := None;
             Study.completedAt := Some (utc 2024 1 1 10 30 0);
             Study.reviewedAt := None;
             Study.waitTime := 9;
             Study.hasAlert := false |}])
  = [ (Event.admission, 0); (Event.doctor_assigned, 10);
      (Event.study_requested, 10); (Event.study_in_progress, 5);
      (Event.study_completed, 15); (Event.study_completed, -10) ].
Proof. reflexivity. Qed.

(** C3. The sequence [generatePatientTimeline] returns is non-decreasing
    in timestamp, whatever the patient and the studies are. *)
Theorem generatePatientTimeline_sorted (p : Patient.t) (studies : list Study.t) :
  StronglySorted by_timestamp (generatePatientTimeline p studies).
Proof.
  unfold generatePatientTimeline, by_timestamp. apply sort_by_sorted.
Qed.

(** C8, amended. The admission event, with duration 0, is the
    first event emitted and is always part of the returned sequence; it is
    the first element of the returned sequence whenever no checkpoint that
    is present has a timestamp earlier than admissionTime. *)
Theorem generatePatientTimeline_anchor (p : Patient.t) (studies : list Study.t) :
  TimelineEvent.type (admissionEvent p) = Event.admission ∧
  TimelineEvent.duration (admissionEvent p) = 0 ∧
  (∃ rest, emittedEvents p studies = admissionEvent p :: rest) ∧
  admissionEvent p ∈ generatePatientTimeline p studies ∧
  (Forall (fun t => Patient.admissionTime p <= t) (checkpoint_times p studies) →
   ∃ rest, generatePatientTimeline p studies = admissionEvent p :: rest).
Proof.
  destruct (emittedEvents_ok p studies) as [[rest Hhd] _].
  split; [reflexivity |]. split; [reflexivity |].
  split; [eauto |]. split.
  - unfold generatePatientTimeline. rewrite sort_by_perm, Hhd.
    apply list_elem_of_here.
  - intros Hlate. rewrite <- emittedEvents_times, Hhd in Hlate.
    simpl in Hlate. apply Forall_cons in Hlate as [_ Hlate].
    unfold generatePatientTimeline. rewrite Hhd.
    exists (sort_by TimelineEvent.timestamp rest).
    apply sort_by_least.
    apply Forall_forall. intros e He.
    apply (proj1 (Forall_forall _ _) Hlate).
    apply list_elem_of_fmap. exists e. split; [reflexivity | exact He].
Qed.

Lemma generatePatientTimeline_anchor_witness :
  ∃ rest,
    generatePatientTimeline scenario_patient [scenario_study]
    = admissionEvent scenario_patient :: rest.
Proof.
  apply (generatePatientTimeline_anchor scenario_patient [scenario_study]).
  vm_compute. repeat constructor; discriminate.
Defined.

(** C8, as stated, fails: a doctor assignment recorded before the
    admission is sorted in front of the admission event. *)
Lemma generatePatientTimeline_anchor_counterexample :
  ¬ (∃ first rest,
        generatePatientTimeline early_doctor_patient [] = first :: rest ∧
        TimelineEvent.type first = Event.admission ∧
        TimelineEvent.duration first = 0).
Proof.
  intros (first & rest & Heq & Hty & _).
  vm_compute in Heq. injection Heq as <- _. discriminate Hty.
Qed.

Example early_doctor_timeline :
  map (fun e => (TimelineEvent.type e, TimelineEvent.duration e))
      (generatePatientTimeline early_doctor_patient [])
  = [ (Event.doctor_assigned, -10); (Event.admission, 0) ].
Proof. reflexivity. Qed.

(** ** The scenario *)

Example scenario_times :
  utc 2024 1 1 10 0 0 = 1704103200000 ∧
  utc 1970 1 1 0 0 0 = 0 ∧
  scenario_now - utc 2024 1 1 10 0 0 = 60 * 60000.
Proof. repeat split. Qed.

(** C5, amended. For the patient admitted at
    2024-01-01T10:00:00Z, assigned a doctor at 10:10, with one study
    requested at 10:20, in progress at 10:25, completed at 10:40 with
    hasAlert, reviewed at 10:45, and allStudiesCompletedAt 10:40:
    [getPatientStage] returns in_progress; [generatePatientTimeline]
    returns 7 events in non-decreasing order of timestamp, namely
    admission, doctor_assigned, study_requested, study_in_progress,
    study_completed (with the abnormal-result description), all_completed,
    study_reviewed, where study_completed and all_completed share the
    timestamp 10:40 and all_completed carries the duration -5; and
    [calculatePatientTimeStats] at 11:00 returns waitingForStudies 20,
    studiesInProgress 15, waitingForReview 5 and averageStudyTime 20. *)
Theorem scenario_results :
  getPatientStage scenario_patient = in_progress ∧
  map (fun e => (TimelineEvent.type e,
                 TimelineEvent.timestamp e,
                 TimelineEvent.duration e))
      (generatePatientTimeline scenario_patient [scenario_study])
  = [ (Event.admission, utc 2024 1 1 10 0 0, 0);
      (Event.doctor_assigned, utc 2024 1 1 10 10 0, 10);
      (Event.study_requested, utc 2024 1 1 10 20 0, 10);
      (Event.study_in_progress, utc 2024 1 1 10 25 0, 5);
      (Event.study_completed, utc 2024 1 1 10 40 0, 15);
      (Event.all_completed, utc 2024 1 1 10 40 0, -5);
      (Event.study_reviewed, utc 2024 1 1 10 45 0, 5) ] ∧
  StronglySorted by_timestamp
    (generatePatientTimeline scenario_patient [scenario_study]) ∧
  map TimelineEvent.description
      (filter (fun e => TimelineEvent.type e = Event.study_completed)
              (generatePatientTimeline scenario_patient [scenario_study]))
  = [ "⚠️ Resultado anormal detectado" ] ∧
  calculatePatientTimeStats scenario_now scenario_patient [scenario_study]
  = {| PatientTimeStats.totalTime := 60;
       PatientTimeStats.waitingForStudies := 20;
       PatientTimeStats.waitingForReview := 5;
       PatientTimeStats.studiesInProgress := 15;
       PatientTimeStats.averageStudyTime := 20 |}.
Proof.
  split; [reflexivity |]. split; [reflexivity |].
  split; [unfold generatePatientTimeline, by_timestamp; apply sort_by_sorted |].
  split; reflexivity.
Qed.

(** C5, as stated, fails: the returned order is not the one with
    study_reviewed before all_completed, and the order is not strict. *)
Lemma scenario_order_counterexample :
  map TimelineEvent.type
      (generatePatientTimeline scenario_patient [scenario_study])
  ≠ [ Event.admission; Event.doctor_assigned; Event.study_requested;
      Event.study_in_progress; Event.study_completed; Event.study_reviewed;
      Event.all_completed ] ∧
  ¬ StronglySorted
      (fun a b => TimelineEvent.timestamp a < TimelineEvent.timestamp b)
      (generatePatientTimeline scenario_patient [scenario_study]).
Proof.
  split.
  - vm_compute. discriminate.
  - intros H. vm_compute in H.
    do 4 (apply StronglySorted_inv in H as [H _]).
    apply StronglySorted_inv in H as [_ H].
    apply Forall_cons in H as [H _]. vm_compute in H. discriminate H.
Qed.

(** The order fails for every way of filling in the fields the scenario
    leaves open: a review later than allStudiesCompletedAt can never be
    returned before the all-completed event. *)
Lemma returned_event_in_template (p : Patient.t) (studies : list Study.t)
    (e : TimelineEvent.t) :
  e ∈ generatePatientTimeline p studies →
  kind_and_time e ∈ reached (template p (sort_by Study.requestedAt studies)).
Proof.
  unfold generatePatientTimeline. rewrite sort_by_perm. intros He.
  rewrite <- emittedEvents_kinds. apply list_elem_of_fmap.
  exists e. split; [reflexivity | exact He].
Qed.

Lemma review_before_all_completed_impossible (p : Patient.t) (s : Study.t)
    (reviewed completed : Z) :
  Study.reviewedAt s = Some reviewed →
  Patient.allStudiesCompletedAt p = Some completed →
  completed < reviewed →
  map TimelineEvent.type (generatePatientTimeline p [s])
  ≠ [ Event.admission; Event.doctor_assigned; Event.study_requested;
      Event.study_in_progress; Event.study_completed; Event.study_reviewed;
      Event.all_completed ].
Proof.
  intros Hrev Hall Hlt Heq.
  assert (Hsorted : StronglySorted by_timestamp (generatePatientTimeline p [s])).
  { unfold generatePatientTimeline, by_timestamp. apply sort_by_sorted. }
  pose proof (returned_event_in_template p [s]) as Hin.
  destruct (generatePatientTimeline p [s])
    as [|e1 [|e2 [|e3 [|e4 [|e5 [|e6 [|e7 [|e8 l]]]]]]]]; try discriminate Heq.
  injection Heq as _ _ _ _ _ H6 H7.
  do 5 (apply StronglySorted_inv in Hsorted as [Hsorted _]).
  apply StronglySorted_inv in Hsorted as [_ Hsorted].
  apply Forall_cons in Hsorted as [Hle _]. unfold by_timestamp in Hle.
  assert (H6in : kind_and_time e6 ∈ reached (template p [s])).
  { apply Hin. among. }
  assert (H7in : kind_and_time e7 ∈ reached (template p [s])).
  { apply Hin. among. }
  unfold kind_and_time in H6in, H7in. rewrite H6 in H6in. rewrite H7 in H7in.
  assert (Hkind : ∀ k t, (k, t) ∈ reached (template p [s]) →
            (k = Event.study_reviewed → t = reviewed) ∧
            (k = Event.all_completed → t = completed)).
  { intros k t Hk. unfold reached in Hk.
    apply list_elem_of_omap in Hk as ([k' o] & Hcp & Hsome).
    simpl in Hsome. destruct o as [t'|]; [| discriminate].
    injection Hsome as -> ->.
    unfold template in Hcp. simpl in Hcp.
    rewrite Hrev, Hall in Hcp.
    repeat (apply elem_of_cons in Hcp as [Hcp | Hcp];
            [injection Hcp as -> ?; split; intros; congruence |]).
    apply elem_of_nil in Hcp. contradiction. }
  apply Hkind in H6in as [H6t _]. apply Hkind in H7in as [_ H7t].
  specialize (H6t eq_refl). specialize (H7t eq_refl). lia.
Qed.

(** * Further properties *)

(** ** Time in the current stage *)

(** The instant from which [getTimeInStage] counts: one of the patient's
    own lifecycle timestamps, a completion time of one of its studies, or
    the epoch. *)
Lemma getTimeInStage_since (p : Patient.t) :
  (∀ now, getTimeInStage now p = Num 0) ∨
  ∃ t, (∀ now, getTimeInStage now p = Num ((now - t) / 60000)) ∧
       (t ∈ patient_lifecycle p ∨ t = 0 ∨
        ∃ s, s ∈ Patient.studies p ∧ Study.completedAt s = Some t).
Proof.
  assert (Hadm : Patient.admissionTime p ∈ patient_lifecycle p).
  { unfold patient_lifecycle, present. simpl. apply list_elem_of_here. }
  assert (Hopt : ∀ o, o ∈ [Patient.assignedToDoctorAt p;
                            Patient.firstStudyRequestedAt p;
                            Patient.allStudiesCompletedAt p] →
                      default (Patient.admissionTime p) o ∈ patient_lifecycle p).
  { intros [t|] Ho; [| exact Hadm]. simpl.
    unfold patient_lifecycle, present. apply list_elem_of_omap.
    exists (Some t). split; [| reflexivity].
    apply list_elem_of_further.
    repeat (apply elem_of_cons in Ho as [<- | Ho]; [among |]).
    apply elem_of_nil in Ho. contradiction. }
  unfold getTimeInStage. destruct (getPatientStage p) eqn:E.
  - right. eexists. split; [reflexivity | left; exact Hadm].
  - right. eexists. split; [reflexivity | left; apply Hopt; among].
  - right. eexists. split; [reflexivity | left; apply Hopt; among].
  - right. apply results_ready_has_studies in E.
    destruct (Math_max_nonempty
                (map (fun s => default 0 (Study.completedAt s)) (Patient.studies p)))
      as (m & Hm & Hin & _).
    { destruct (Patient.studies p); [congruence | discriminate]. }
    exists m. split; [intros now; rewrite Hm; reflexivity |].
    apply list_elem_of_fmap in Hin as (s & -> & Hs).
    destruct (Study.completedAt s) as [c|] eqn:Ec; simpl; eauto.
  - right. eexists. split; [reflexivity | left; apply Hopt; among].
  - left. reflexivity.
Qed.


(** X2. When no timestamp of the patient or of its studies is later than
    [now], and [now] is not before the epoch, the time in stage is not
    negative. *)
Theorem getTimeInStage_nonneg (now : Z) (p : Patient.t) :
  not_in_future now p (Patient.studies p) →
  0 <= now →
  ∃ z, getTimeInStage now p = Num z ∧ 0 <= z.
Proof.
  intros [HFp HFs] Hnow.
  destruct (getTimeInStage_since p) as [H | (t & H & Ht)]; rewrite H.
  { exists 0. split; [reflexivity | lia]. }
  eexists. split; [reflexivity |]. apply Z.div_pos; [| lia].
  enough (t <= now) by lia.
  destruct Ht as [Ht | [-> | (s & Hs & Hc)]].
  - rewrite Forall_forall in HFp. apply HFp, Ht.
  - exact Hnow.
  - rewrite Forall_forall in HFs. specialize (HFs s Hs).
    unfold study_lifecycle in HFs. rewrite Hc in HFs.
    apply (present_bounded _ _ _ HFs). among.
Qed.

Lemma getTimeInStage_nonneg_witness :
  ∃ z, getTimeInStage scenario_now (ready_patient [ready_study_a; ready_study_b])
       = Num z ∧ 0 <= z.
Proof.
  apply (getTimeInStage_nonneg scenario_now
           (ready_patient [ready_study_a; ready_study_b])).
  - unfold not_in_future. apply (bool_decide_unpack _). vm_compute. exact I.
  - vm_compute. discriminate.
Defined.

(** X3. The time in stage never decreases as [now] advances. *)
Theorem getTimeInStage_monotone (now1 now2 : Z) (p : Patient.t) :
  now1 <= now2 →
  ∃ z1 z2, getTimeInStage now1 p = Num z1 ∧ getTimeInStage now2 p = Num z2 ∧
           z1 <= z2.
Proof.
  intros Hle.
  destruct (getTimeInStage_since p) as [H | (t & H & _)]; rewrite !H.
  - exists 0, 0. repeat split; lia.
  - eexists _, _. split; [reflexivity |]. split; [reflexivity |].
    apply Z.div_le_mono; lia.
Qed.

Lemma getTimeInStage_monotone_witness :
  ∃ z1 z2,
    getTimeInStage (utc 2024 1 1 10 50 0) scenario_patient = Num z1 ∧
    getTimeInStage scenario_now scenario_patient = Num z2 ∧ z1 <= z2.
Proof.
  apply (getTimeInStage_monotone (utc 2024 1 1 10 50 0) scenario_now scenario_patient).
  vm_compute. discriminate.
Defined.

(** ** Time statistics *)

Lemma sumZ_perm {A} (f : A → Z) (l k : list A) : l ≡ₚ k → sumZ f l = sumZ f k.
Proof.
  induction 1 as [| x l k _ IH | x y l | l k m _ IH1 _ IH2]; simpl; lia.
Qed.

Lemma sumZ_le {A} (f g : A → Z) (l : list A) :
  Forall (fun x => f x <= g x) l → sumZ f l <= sumZ g l.
Proof. induction 1 as [|x l Hx _ IH]; simpl; lia. Qed.

Lemma sumZ_ext {A} (f g : A → Z) (l : list A) :
  Forall (fun x => f x = g x) l → sumZ f l = sumZ g l.
Proof. induction 1 as [|x l Hx _ IH]; simpl; lia. Qed.

Lemma minutes_le (from from' to to' : Z) :
  from' <= from → to <= to' → minutes from to <= minutes from' to'.
Proof. intros H1 H2. unfold minutes. apply Z.div_le_mono; lia. Qed.

Lemma stats_averageStudyTime (now : Z) (p : Patient.t) (studies : list Study.t) :
  PatientTimeStats.averageStudyTime (calculatePatientTimeStats now p studies)
  = if (0 <? length (with_completedAt studies))%nat
    then sumZ (study_wait now) studies / Z.of_nat (length (with_completedAt studies))
    else 0.
Proof.
  rewrite <- count_completed, <- (stats_waitingForStudies now p). reflexivity.
Qed.

Lemma stats_ext (a b : PatientTimeStats.t) :
  PatientTimeStats.totalTime a = PatientTimeStats.totalTime b →
  PatientTimeStats.waitingForStudies a = PatientTimeStats.waitingForStudies b →
  PatientTimeStats.waitingForReview a = PatientTimeStats.waitingForReview b →
  PatientTimeStats.studiesInProgress a = PatientTimeStats.studiesInProgress b →
  PatientTimeStats.averageStudyTime a = PatientTimeStats.averageStudyTime b →
  a = b.
Proof. destruct a, b; simpl; congruence. Qed.

(** X4. The statistics do not depend on the order of the studies. *)
Theorem calculatePatientTimeStats_perm (now : Z) (p : Patient.t)
    (studies studies' : list Study.t) :
  studies ≡ₚ studies' →
  calculatePatientTimeStats now p studies = calculatePatientTimeStats now p studies'.
Proof.
  intros Hperm. apply stats_ext.
  - rewrite !stats_totalTime. reflexivity.
  - rewrite !stats_waitingForStudies. apply sumZ_perm, Hperm.
  - rewrite !stats_waitingForReview. apply sumZ_perm, Hperm.
  - rewrite !stats_studiesInProgress. apply sumZ_perm, Hperm.
  - assert (Hn : length (with_completedAt studies)
                 = length (with_completedAt studies')).
    { unfold with_completedAt. rewrite Hperm. reflexivity. }
    rewrite !stats_averageStudyTime, (sumZ_perm _ _ _ Hperm), Hn. reflexivity.
Qed.

Lemma calculatePatientTimeStats_perm_witness :
  calculatePatientTimeStats scenario_now (ready_patient []) [ready_study_a; ready_study_b]
  = calculatePatientTimeStats scenario_now (ready_patient []) [ready_study_b; ready_study_a].
Proof.
  apply (calculatePatientTimeStats_perm scenario_now (ready_patient [])).
  apply Permutation_swap.
Defined.

(** X5. Once the patient has a dischargedAt and every study has both a
    completedAt and a reviewedAt, the statistics no longer depend on the
    instant at which they are computed. *)
Theorem calculatePatientTimeStats_frozen (now now' : Z) (p : Patient.t)
    (studies : list Study.t) :
  is_Some (Patient.dischargedAt p) →
  Forall (fun s => is_Some (Study.completedAt s) ∧ is_Some (Study.reviewedAt s))
         studies →
  calculatePatientTimeStats now p studies = calculatePatientTimeStats now' p studies.
Proof.
  intros [d Hd] Hdone.
  assert (Hwait : sumZ (study_wait now) studies = sumZ (study_wait now') studies).
  { apply sumZ_ext. eapply Forall_impl; [exact Hdone |].
    intros s [[c Hc] _]. unfold study_wait. rewrite Hc. reflexivity. }
  apply stats_ext.
  - rewrite !stats_totalTime, Hd. reflexivity.
  - rewrite !stats_waitingForStudies. exact Hwait.
  - rewrite !stats_waitingForReview. apply sumZ_ext.
    eapply Forall_impl; [exact Hdone |].
    intros s [[c Hc] [r Hr]]. unfold review_wait. rewrite Hc, Hr. reflexivity.
  - rewrite !stats_studiesInProgress. reflexivity.
  - rewrite !stats_averageStudyTime, Hwait. reflexivity.
Qed.

Lemma calculatePatientTimeStats_frozen_witness :
  calculatePatientTimeStats scenario_now orderly_patient [scenario_study]
  = calculatePatientTimeStats (utc 2024 6 1 0 0 0) orderly_patient [scenario_study].
Proof.
  apply (calculatePatientTimeStats_frozen scenario_now (utc 2024 6 1 0 0 0)
           orderly_patient [scenario_study]).
  - eexists. reflexivity.
  - repeat constructor; eexists; reflexivity.
Defined.

(** X6. As [now] advances no statistic decreases, and studiesInProgress
    does not change at all. *)
Theorem calculatePatientTimeStats_monotone (now now' : Z) (p : Patient.t)
    (studies : list Study.t) :
  now <= now' →
  let a := calculatePatientTimeStats now p studies in
  let b := calculatePatientTimeStats now' p studies in
  PatientTimeStats.totalTime a <= PatientTimeStats.totalTime b ∧
  PatientTimeStats.waitingForStudies a <= PatientTimeStats.waitingForStudies b ∧
  PatientTimeStats.waitingForReview a <= PatientTimeStats.waitingForReview b ∧
  PatientTimeStats.studiesInProgress a = PatientTimeStats.studiesInProgress b ∧
  PatientTimeStats.averageStudyTime a <= PatientTimeStats.averageStudyTime b.
Proof.
  intros Hle a b. subst a b.
  assert (Hwait : sumZ (study_wait now) studies <= sumZ (study_wait now') studies).
  { apply sumZ_le, Forall_forall. intros s _. unfold study_wait.
    apply minutes_le; [lia |]. destruct (Study.completedAt s); lia. }
  rewrite !stats_totalTime, !stats_waitingForStudies, !stats_waitingForReview,
    !stats_studiesInProgress, !stats_averageStudyTime.
  split; [| split; [exact Hwait | split; [| split; [reflexivity |]]]].
  - apply minutes_le; [lia |]. destruct (Patient.dischargedAt p); lia.
  - apply sumZ_le, Forall_forall. intros s _. unfold review_wait.
    destruct (Study.completedAt s); [| lia].
    apply minutes_le; [lia |]. destruct (Study.reviewedAt s); lia.
  - destruct (0 <? length (with_completedAt studies))%nat eqn:E; [| lia].
    apply Nat.ltb_lt in E. apply Z.div_le_mono; lia.
Qed.

Lemma calculatePatientTimeStats_monotone_witness :
  PatientTimeStats.waitingForStudies
    (calculatePatientTimeStats (utc 2024 1 1 10 50 0) (ready_patient [])
       [ready_study_a; ready_study_b])
  <= PatientTimeStats.waitingForStudies
       (calculatePatientTimeStats scenario_now (ready_patient [])
          [ready_study_a; ready_study_b]).
Proof.
  apply (calculatePatientTimeStats_monotone (utc 2024 1 1 10 50 0) scenario_now
           (ready_patient []) [ready_study_a; ready_study_b]).
  vm_compute. discriminate.
Defined.

(** X7. Under a monotonic lifecycle with no timestamp later than [now],
    the time the studies spent in progress is at most the time spent
    waiting for them. *)
Theorem studiesInProgress_le_waitingForStudies (now : Z) (p : Patient.t)
    (studies : list Study.t) :
  monotonic p studies →
  not_in_future now p studies →
  PatientTimeStats.studiesInProgress (calculatePatientTimeStats now p studies)
  <= PatientTimeStats.waitingForStudies (calculatePatientTimeStats now p studies).
Proof.
  intros [_ HSs] [_ HFs].
  rewrite stats_studiesInProgress, stats_waitingForStudies.
  rewrite Forall_forall in HSs, HFs.
  apply sumZ_le, Forall_forall. intros s Hs.
  specialize (HSs s Hs). specialize (HFs s Hs).
  pose proof (study_wait_nonneg now p s HSs HFs) as Hnonneg.
  unfold processing_time, study_wait in *. unfold study_lifecycle in HSs.
  destruct (Study.inProgressAt s) as [i|]; [| exact Hnonneg].
  destruct (Study.completedAt s) as [c|]; [| exact Hnonneg].
  apply minutes_le; [| lia].
  apply (present_ordered _ _ _ HSs). in_lifecycle.
Qed.

Lemma studiesInProgress_le_waitingForStudies_witness :
  PatientTimeStats.studiesInProgress
    (calculatePatientTimeStats scenario_now
       (ready_patient [ready_study_a; ready_study_b]) [ready_study_a; ready_study_b])
  <= PatientTimeStats.waitingForStudies
       (calculatePatientTimeStats scenario_now
          (ready_patient [ready_study_a; ready_study_b]) [ready_study_a; ready_study_b]).
Proof.
  apply (studiesInProgress_le_waitingForStudies scenario_now
           (ready_patient [ready_study_a; ready_study_b])
           [ready_study_a; ready_study_b]).
  - unfold monotonic. apply (bool_decide_unpack _). vm_compute. exact I.
  - unfold not_in_future. apply (bool_decide_unpack _). vm_compute. exact I.
Defined.

(** ** Timeline *)

Lemma study_events_count_le (s : Study.t) : (study_events_count s ≤ 3)%nat.
Proof.
  unfold study_events_count, count_present, present.
  destruct (Study.inProgressAt s), (Study.completedAt s), (Study.reviewedAt s);
    simpl; lia.
Qed.

Lemma length_reached_studies (l : list Study.t) :
  length (reached (l ≫= study_checkpoints)) = sum_list_with study_events_count l.
Proof.
  induction l as [|s l IH]; [reflexivity |].
  rewrite bind_cons, reached_app, length_app, IH. simpl. f_equal.
  unfold study_events_count, count_present, present, reached.
  destruct (Study.inProgressAt s), (Study.completedAt s), (Study.reviewedAt s);
    reflexivity.
Qed.

Lemma sum_study_events_le (l : list Study.t) :
  (sum_list_with study_events_count l ≤ 3 * length l)%nat.
Proof.
  induction l as [|s l IH]; simpl; [lia |].
  pose proof (study_events_count_le s). lia.
Qed.

(** X8. The timeline has one event for the admission and one for every
    checkpoint that is present, and nothing else: it is never empty and has
    at most five events plus three per study. *)
Theorem generatePatientTimeline_length (p : Patient.t) (studies : list Study.t) :
  length (generatePatientTimeline p studies)
  = S (count_present [Patient.assignedToDoctorAt p;
                      Patient.firstStudyRequestedAt p;
                      Patient.allStudiesCompletedAt p;
                      Patient.dischargedAt p]
       + sum_list_with study_events_count studies) ∧
  (1 ≤ length (generatePatientTimeline p studies) ≤ 5 + 3 * length studies)%nat.
Proof.
  assert (Hlen : length (generatePatientTimeline p studies)
                 = S (count_present [Patient.assignedToDoctorAt p;
                                     Patient.firstStudyRequestedAt p;
                                     Patient.allStudiesCompletedAt p;
                                     Patient.dischargedAt p]
                      + sum_list_with study_events_count studies)).
  { unfold generatePatientTimeline.
    rewrite (sort_by_perm TimelineEvent.timestamp).
    rewrite <- (length_map kind_and_time), emittedEvents_kinds.
    unfold template. rewrite !reached_app, !length_app, length_reached_studies.
    rewrite (sort_by_perm Study.requestedAt).
    unfold count_present, present, reached.
    destruct (Patient.assignedToDoctorAt p), (Patient.firstStudyRequestedAt p),
      (Patient.allStudiesCompletedAt p), (Patient.dischargedAt p);
      simpl; lia. }
  split; [exact Hlen |]. rewrite Hlen.
  pose proof (sum_study_events_le studies).
  assert (count_present [Patient.assignedToDoctorAt p;
                         Patient.firstStudyRequestedAt p;
                         Patient.allStudiesCompletedAt p;
                         Patient.dischargedAt p] ≤ 4)%nat.
  { unfold count_present, present.
    destruct (Patient.assignedToDoctorAt p), (Patient.firstStudyRequestedAt p),
      (Patient.allStudiesCompletedAt p), (Patient.dischargedAt p);
      simpl; lia. }
  lia.
Qed.

Lemma key_inj_in {A} (key : A → Z) (l : list A) (x y : A) :
  NoDup (map key l) → x ∈ l → y ∈ l → key x = key y → x = y.
Proof.
  induction l as [|a l IH]; intros Hnd Hx Hy E; [inversion Hx |].
  simpl in Hnd. apply NoDup_cons in Hnd as [Ha Hnd].
  assert (Hin : ∀ z, z ∈ l → key z ∈ map key l).
  { intros z Hz. apply list_elem_of_fmap. eauto. }
  apply elem_of_cons in Hx as [-> | Hx]; apply elem_of_cons in Hy as [-> | Hy].
  - reflexivity.
  - exfalso. apply Ha. rewrite E. apply Hin, Hy.
  - exfalso. apply Ha. rewrite <- E. apply Hin, Hx.
  - apply IH; assumption.
Qed.

Lemma sort_by_unique {A} (key : A → Z) (l k : list A) :
  l ≡ₚ k → NoDup (map key l) → sort_by key l = sort_by key k.
Proof.
  intros Hperm Hnd.
  apply (StronglySorted_unique_strong (fun a b => key a <= key b)).
  - intros x y Hx Hy Hxy Hyx.
    rewrite (sort_by_perm key) in Hx. rewrite (sort_by_perm key), <- Hperm in Hy.
    apply (key_inj_in key l); [assumption .. | lia].
  - apply sort_by_sorted.
  - apply sort_by_sorted.
  - rewrite !(sort_by_perm key). exact Hperm.
Qed.

(** X9. When the studies have pairwise different requestedAt, the timeline
    does not depend on the order in which they are listed. *)
Theorem generatePatientTimeline_perm (p : Patient.t) (studies studies' : list Study.t) :
  studies ≡ₚ studies' →
  NoDup (map Study.requestedAt studies) →
  generatePatientTimeline p studies = generatePatientTimeline p studies'.
Proof.
  intros Hperm Hnd. unfold generatePatientTimeline, emittedEvents.
  rewrite (sort_by_unique Study.requestedAt _ _ Hperm Hnd).
  rewrite (Permutation_length Hperm). reflexivity.
Qed.

Lemma generatePatientTimeline_perm_witness :
  generatePatientTimeline (ready_patient []) [ready_study_a; ready_study_b]
  = generatePatientTimeline (ready_patient []) [ready_study_b; ready_study_a].
Proof.
  apply (generatePatientTimeline_perm (ready_patient [])).
  - apply Permutation_swap.
  - apply (bool_decide_unpack _). vm_compute. exact I.
Defined.

(** X10. Events with the same timestamp are returned in the order in
    which they were emitted, which is the order of the template. *)
Theorem generatePatientTimeline_ties (p : Patient.t) (studies : list Study.t) (t : Z) :
  filter (fun e => TimelineEvent.timestamp e = t) (generatePatientTimeline p studies)
  = filter (fun e => TimelineEvent.timestamp e = t) (emittedEvents p studies).
Proof. unfold generatePatientTimeline. apply sort_by_stable. Qed.

Lemma sort_by_sorted_id {A} (key : A → Z) (l : list A) :
  StronglySorted (fun a b => key a <= key b) l → sort_by key l = l.
Proof.
  induction 1 as [|x l _ IH Hx]; [reflexivity |].
  simpl. rewrite IH. apply insert_by_least, Hx.
Qed.

Lemma sorted_by_timestamp (l : list TimelineEvent.t) :
  Sorted Z.le (map TimelineEvent.timestamp l) → StronglySorted by_timestamp l.
Proof.
  intros H. apply Sorted_StronglySorted in H; [| intros ? ? ?; lia].
  induction l as [|e l IH]; [constructor |].
  simpl in H. apply StronglySorted_inv in H as [Hl He].
  constructor; [apply IH, Hl |].
  apply Forall_forall. intros e' He'.
  apply (proj1 (Forall_forall _ _) He).
  apply list_elem_of_fmap. eauto.
Qed.

Lemma chained_sorted_nonneg (prev : Z) (l : list TimelineEvent.t) :
  chained_from prev l →
  Sorted Z.le (prev :: map TimelineEvent.timestamp l) →
  Forall (fun e => 0 <= TimelineEvent.duration e) l.
Proof.
  revert prev. induction l as [|e l IH]; intros prev; [constructor |].
  simpl. intros [Hd Hch] Hs.
  apply Sorted_inv in Hs as [Hs Hhd]. apply HdRel_inv in Hhd.
  constructor; [| exact (IH _ Hch Hs)].
  rewrite Hd. apply minutes_nonneg, Hhd.
Qed.

(** X11. When the checkpoints that are present are in chronological order
    as the template lists them, the final sort changes nothing and no
    duration is negative. *)
Theorem generatePatientTimeline_chronological (p : Patient.t) (studies : list Study.t) :
  Sorted Z.le (template_times p studies) →
  generatePatientTimeline p studies = emittedEvents p studies ∧
  Forall (fun e => 0 <= TimelineEvent.duration e) (generatePatientTimeline p studies).
Proof.
  intros Hs. unfold template_times in Hs.
  rewrite <- emittedEvents_kinds, map_map in Hs.
  change (map (fun e => snd (kind_and_time e)) (emittedEvents p studies))
    with (map TimelineEvent.timestamp (emittedEvents p studies)) in Hs.
  assert (Heq : generatePatientTimeline p studies = emittedEvents p studies).
  { unfold generatePatientTimeline. apply sort_by_sorted_id.
    apply (sorted_by_timestamp _ Hs). }
  split; [exact Heq |]. rewrite Heq.
  destruct (emittedEvents_ok p studies) as [[rest Hhd] Hch].
  apply (chained_sorted_nonneg (Patient.admissionTime p)); [exact Hch |].
  constructor; [exact Hs |]. rewrite Hhd. simpl. constructor. lia.
Qed.

Lemma generatePatientTimeline_chronological_witness :
  generatePatientTimeline orderly_patient [ready_study_a]
  = emittedEvents orderly_patient [ready_study_a] ∧
  Forall (fun e => 0 <= TimelineEvent.duration e)
         (generatePatientTimeline orderly_patient [ready_study_a]).
Proof.
  apply (generatePatientTimeline_chronological orderly_patient [ready_study_a]).
  apply (bool_decide_unpack _). vm_compute. exact I.
Defined.

(** ** Duration formatting *)

Lemma all_digits_uint (d : Decimal.uint) :
  all_digits (NilEmpty.string_of_uint d) = true.
Proof. induction d; simpl; auto. Qed.

Lemma show_pos (q : positive) :
  ∃ c s, NilZero.string_of_uint (Pos.to_uint q) = String c s ∧
         is_digit c = true ∧ all_digits s = true.
Proof.
  pose proof (DecimalPos.Unsigned.to_uint_nonnil q) as Hnn.
  pose proof (all_digits_uint (Pos.to_uint q)) as Hd.
  destruct (Pos.to_uint q); [congruence | ..]; simpl in *;
    eexists _, _; (split; [reflexivity |]); split; auto.
Qed.

Lemma show_Z_nonneg (z : Z) :
  0 <= z →
  ∃ c s, show_Z z = String c s ∧ is_digit c = true ∧ all_digits s = true.
Proof.
  intros Hz. destruct z as [|q|q]; [| apply show_pos | lia].
  eexists _, _. repeat split.
Qed.

Lemma show_Z_digits (z : Z) : 0 <= z → all_digits (show_Z z) = true.
Proof.
  intros Hz. destruct (show_Z_nonneg z Hz) as (c & s & -> & Hc & Hs).
  simpl. rewrite Hc, Hs. reflexivity.
Qed.

Lemma show_Z_neg (z : Z) : z < 0 → show_Z z = String "-" (show_Z (- z)).
Proof. intros Hz. destruct z as [|q|q]; [lia | lia | reflexivity]. Qed.

Lemma show_Z_inj (a b : Z) : show_Z a = show_Z b → a = b.
Proof.
  assert (Hnn : ∀ z, Z.to_int z ≠ Decimal.Pos Decimal.Nil ∧
                     Z.to_int z ≠ Decimal.Neg Decimal.Nil).
  { intros [|q|q]; simpl; split; try discriminate;
      intros [= E]; exact (DecimalPos.Unsigned.to_uint_nonnil q E). }
  unfold show_Z. intros E. apply DecimalZ.to_int_inj.
  apply (f_equal NilZero.int_of_string) in E.
  rewrite !NilZero.isi in E by apply Hnn. congruence.
Qed.

(** A string is cut in one way only into leading digits, a first character
    that is no digit, and the rest. *)
Lemma digits_split (s1 s2 : string) (c1 c2 : Ascii.ascii) (r1 r2 : string) :
  all_digits s1 = true → all_digits s2 = true →
  is_digit c1 = false → is_digit c2 = false →
  s1 +:+ String c1 r1 = s2 +:+ String c2 r2 →
  s1 = s2 ∧ c1 = c2 ∧ r1 = r2.
Proof.
  revert s2. induction s1 as [|a s1 IH]; intros [|b s2]; simpl;
    intros H1 H2 Hc1 Hc2 E.
  - injection E as -> ->. auto.
  - injection E as -> _. apply andb_true_iff in H2 as [H2 _]. congruence.
  - injection E as -> _. apply andb_true_iff in H1 as [H1 _]. congruence.
  - injection E as -> E.
    apply andb_true_iff in H1 as [_ H1]. apply andb_true_iff in H2 as [_ H2].
    destruct (IH s2 H1 H2 Hc1 Hc2 E) as (-> & -> & ->). auto.
Qed.

Lemma formatDuration_shape (m : Z) :
  ∃ s c r, formatDuration m = s +:+ String c r ∧ duration_shape m s c r.
Proof.
  unfold formatDuration. destruct (m <? 60) eqn:E60.
  - apply Z.ltb_lt in E60. destruct (Z.lt_ge_cases m 0) as [Hneg | Hpos].
    + exists "", "-"%char, (show_Z (- m) +:+ "m"). split.
      * rewrite (show_Z_neg m Hneg). reflexivity.
      * constructor. exact Hneg.
    + exists (show_Z m), "m"%char, "". split; [reflexivity |].
      constructor. lia.
  - apply Z.ltb_ge in E60. rewrite Z.rem_mod_nonneg by lia.
    assert (Hmod : 0 <= m mod 60 < 60) by (apply Z.mod_pos_bound; lia).
    destruct (0 <? m mod 60) eqn:Er.
    + apply Z.ltb_lt in Er.
      exists (show_Z (m / 60)), "h"%char, (String " " (show_Z (m mod 60) +:+ "m")).
      split; [reflexivity |]. constructor; assumption.
    + apply Z.ltb_ge in Er.
      exists (show_Z (m / 60)), "h"%char, "". split; [reflexivity |].
      constructor; [assumption | lia].
Qed.

Lemma duration_shape_digits (m : Z) (s : string) (c : Ascii.ascii) (r : string) :
  duration_shape m s c r → all_digits s = true ∧ is_digit c = false.
Proof.
  destruct 1; (split; [| reflexivity]);
    try reflexivity; apply show_Z_digits; try lia.
  - apply Z.div_pos; lia.
  - apply Z.div_pos; lia.
Qed.

Lemma minutes_suffix_inj (a b : Z) :
  0 <= a → 0 <= b → show_Z a +:+ "m" = show_Z b +:+ "m" → a = b.
Proof.
  intros Ha Hb E. apply show_Z_inj.
  apply (digits_split _ _ "m" "m" "" ""); auto using show_Z_digits.
Qed.

(** X12. [formatDuration] renders different numbers of minutes
    differently, negative ones included. *)
Theorem formatDuration_inj (a b : Z) :
  formatDuration a = formatDuration b → a = b.
Proof.
  intros E.
  destruct (formatDuration_shape a) as (s1 & c1 & r1 & E1 & Ha).
  destruct (formatDuration_shape b) as (s2 & c2 & r2 & E2 & Hb).
  rewrite E1, E2 in E.
  destruct (duration_shape_digits _ _ _ _ Ha) as [Hs1 Hc1].
  destruct (duration_shape_digits _ _ _ _ Hb) as [Hs2 Hc2].
  destruct (digits_split _ _ _ _ _ _ Hs1 Hs2 Hc1 Hc2 E) as (Es & Ec & Er).
  destruct Ha as [Ha | Ha | Ha Hra | Ha Hra];
    destruct Hb as [Hb | Hb | Hb Hrb | Hb Hrb];
    try discriminate Ec; try discriminate Er.
  - apply minutes_suffix_inj in Er; lia.
  - apply show_Z_inj in Es. exact Es.
  - apply show_Z_inj in Es.
    rewrite (Z.div_mod a 60), (Z.div_mod b 60) by lia. lia.
  - apply show_Z_inj in Es. injection Er as Er.
    apply minutes_suffix_inj in Er; [| lia | lia].
    rewrite (Z.div_mod a 60), (Z.div_mod b 60) by lia. lia.
Qed.

Lemma formatDuration_inj_witness : formatDuration 135 = "2h 15m" ∧ 60 + 75 = 135.
Proof.
  split; [reflexivity |].
  apply (formatDuration_inj (60 + 75) 135). reflexivity.
Defined.

(** X13. A formatted duration reads back as the minutes it was made from:
    below an hour it is the number followed by m; from an hour on it is
    the whole hours followed by h and, unless they are 0, the remaining
    minutes (from 1 to 59) followed by m; hours and remaining minutes add
    up to the input. *)
Theorem formatDuration_parts (m : Z) :
  (m < 60 → formatDuration m = show_Z m +:+ "m") ∧
  (60 <= m →
   ∃ hours mins,
     m = 60 * hours + mins ∧ 1 <= hours ∧ 0 <= mins < 60 ∧
     formatDuration m
     = if mins =? 0 then show_Z hours +:+ "h"
       else show_Z hours +:+ "h " +:+ show_Z mins +:+ "m").
Proof.
  unfold formatDuration. split; intros Hm.
  - apply Z.ltb_lt in Hm. rewrite Hm. reflexivity.
  - assert (Hmod : 0 <= m mod 60 < 60) by (apply Z.mod_pos_bound; lia).
    assert (1 <= m / 60) by (apply Z.div_le_lower_bound; lia).
    exists (m / 60), (m mod 60).
    split; [apply Z.div_mod; lia |]. split; [assumption |]. split; [exact Hmod |].
    apply Z.ltb_ge in Hm. rewrite Hm, Z.rem_mod_nonneg by lia.
    destruct (m mod 60 =? 0) eqn:E0.
    + apply Z.eqb_eq in E0. rewrite E0. reflexivity.
    + apply Z.eqb_neq in E0.
      assert ((0 <? m mod 60) = true) as -> by (apply Z.ltb_lt; lia).
      reflexivity.
Qed.

Lemma formatDuration_parts_witness :
  formatDuration (-5) = "-5m" ∧
  ∃ hours mins,
    120 = 60 * hours + mins ∧ 1 <= hours ∧ 0 <= mins < 60 ∧
    formatDuration 120
    = if mins =? 0 then show_Z hours +:+ "h"
      else show_Z hours +:+ "h " +:+ show_Z mins +:+ "m".
Proof.
  split.
  - apply (formatDuration_parts (-5)). reflexivity.
  - apply (formatDuration_parts 120). discriminate.
Defined.

(** ** The cards and the columns of the board *)

Lemma filter_split_length {A} (f : A → bool) (l : list A) :
  (length (List.filter (fun x => negb (f x)) l) + length (List.filter f l)
   = length l)%nat.
Proof.
  induction l as [|x l IH]; [reflexivity |].
  simpl. destruct (f x); simpl; lia.
Qed.

Lemma filter_length_le {A} (f g : A → bool) (l : list A) :
  (∀ x, f x = true → g x = true) →
  (length (List.filter f l) ≤ length (List.filter g l))%nat.
Proof.
  intros Himp. induction l as [|x l IH]; [reflexivity |].
  simpl. destruct (f x) eqn:Ef.
  - rewrite (Himp x Ef). simpl. lia.
  - destruct (g x); simpl; lia.
Qed.

Lemma no_pending_when_completed (l : list Study.t) :
  Forall is_completed l →
  length (List.filter (fun s => negb (Study.status s =? "Completado")%string) l) = O.
Proof.
  induction 1 as [|s l Hs _ IH]; [reflexivity |].
  simpl. unfold is_completed, Completed in Hs.
  apply String.eqb_eq in Hs. rewrite Hs. exact IH.
Qed.

Lemma pending_when_in_flight (l : list Study.t) :
  Exists in_flight l →
  (0 < length (List.filter (fun s => negb (Study.status s =? "Completado")%string) l))%nat.
Proof.
  induction 1 as [s l Hs | s l _ IH]; simpl.
  - assert ((Study.status s =? "Completado")%string = false) as ->.
    { apply String.eqb_neq.
      destruct Hs as [-> | ->]; unfold Requested, PendingResult; discriminate. }
    simpl. lia.
  - destruct (negb _); simpl; lia.
Qed.

(** X14. On a card the pending and the completed studies add up to all the
    studies of the patient, and the studies in process are counted among
    the pending ones. A patient in stage results_ready or in_progress has
    no pending study and at least one completed one; a patient in stage
    in_studies has at least one pending study. *)
Theorem patientCard_counts (now : Z) (p : Patient.t) :
  let card := patientCard now p in
  (Card.pendingStudies card + Card.completedStudies card
   = length (Patient.studies p))%nat ∧
  (Card.inProgressStudies card ≤ Card.pendingStudies card)%nat ∧
  (getPatientStage p = results_ready ∨ getPatientStage p = in_progress →
   Card.pendingStudies card = O ∧ (0 < Card.completedStudies card)%nat) ∧
  (getPatientStage p = in_studies → (0 < Card.pendingStudies card)%nat).
Proof.
  intros card. subst card. unfold patientCard. simpl.
  pose proof (filter_split_length
                (fun s => (Study.status s =? "Completado")%string)
                (Patient.studies p)) as Hsplit.
  cbv beta in Hsplit.
  split; [exact Hsplit |]. split; [| split].
  - apply filter_length_le. intros s Hs.
    apply String.eqb_eq in Hs. rewrite Hs. reflexivity.
  - intros Hstage. pose proof (getPatientStage_classifies p) as Hrow.
    assert (Hdone : Patient.studies p ≠ [] ∧ Forall is_completed (Patient.studies p)).
    { destruct Hstage as [E | E]; rewrite E in Hrow; inversion Hrow; auto. }
    destruct Hdone as [Hne Hall].
    rewrite (no_pending_when_completed _ Hall) in Hsplit.
    split; [apply no_pending_when_completed, Hall |].
    simpl in Hsplit. rewrite Hsplit.
    destruct (Patient.studies p); [congruence | simpl; lia].
  - intros E. pose proof (getPatientStage_classifies p) as Hrow.
    rewrite E in Hrow. inversion Hrow. apply pending_when_in_flight. assumption.
Qed.

Lemma patientCard_counts_witness :
  Card.pendingStudies (patientCard scenario_now scenario_patient) = O ∧
  (0 < Card.completedStudies (patientCard scenario_now scenario_patient))%nat.
Proof.
  apply (patientCard_counts scenario_now scenario_patient).
  right. reflexivity.
Defined.

Lemma patientsByStage_lookup (patients : list Patient.t) :
  ∃ grouped, patientsByStage patients = Some grouped ∧
             ∀ st, grouped !! st = Some (in_stage st patients).
Proof.
  destruct (forEach_push_invariant patients [] grouped_init) as (g & Hrun & Hg).
  { intros st. rewrite grouped_init_lookup. reflexivity. }
  exists g. split; [exact Hrun | exact Hg].
Qed.

(** X15. The board always renders: it has the six columns in the order
    admission, waiting_doctor, in_studies, results_ready, in_progress,
    discharge, the column of a stage holds exactly the patients of that
    stage in their input order, and the counts in the column headers add up
    to the number of patients. *)
Theorem boardColumns_partition (patients : list Patient.t) :
  ∃ cols,
    boardColumns patients = Some cols ∧
    map (fun col => Stage.id (fst col)) cols = all_stages ∧
    Forall (fun col => snd col = in_stage (Stage.id (fst col)) patients) cols ∧
    sum_list_with (fun col => length (snd col)) cols = length patients.
Proof.
  destruct (patientsByStage_lookup patients) as (g & Hrun & Hg).
  unfold boardColumns. rewrite Hrun. unfold stages. simpl.
  rewrite !Hg. eexists. split; [reflexivity |]. split; [reflexivity |].
  split; [repeat constructor |].
  rewrite <- (Permutation_length (in_stage_all patients)).
  unfold all_stages. simpl. rewrite !length_app. simpl. lia.
Qed.

(** X16. Grouping a list of patients followed by another gives, under
    every stage, the group of the first list followed by the group of the
    second. *)
Theorem patientsByStage_app (patients patients' : list Patient.t) :
  ∃ g1 g2 g,
    patientsByStage patients = Some g1 ∧
    patientsByStage patients' = Some g2 ∧
    patientsByStage (patients ++ patients') = Some g ∧
    ∀ st, ∃ b1 b2,
      g1 !! st = Some b1 ∧ g2 !! st = Some b2 ∧ g !! st = Some (b1 ++ b2).
Proof.
  destruct (patientsByStage_lookup patients) as (g1 & H1 & Hg1).
  destruct (patientsByStage_lookup patients') as (g2 & H2 & Hg2).
  destruct (patientsByStage_lookup (patients ++ patients')) as (g & H & Hg).
  exists g1, g2, g. repeat (split; [assumption |]).
  intros st. exists (in_stage st patients), (in_stage st patients').
  rewrite Hg1, Hg2, Hg. unfold in_stage. rewrite filter_app. auto.
Qed.

(** ** Event colors and icons *)

(** X17. Every event kind has a color and an icon of its own: the
    fallback color text-foreground and the fallback icon Circle are never
    returned, and the eight kinds have eight different icons. *)
Theorem event_tables_complete :
  (∀ k, k ∈ all_kinds ∧
        getEventIcon k ≠ "Circle" ∧ getEventColor k ≠ "text-foreground") ∧
  NoDup (map getEventIcon all_kinds).
Proof.
  split.
  - intros k. split; [destruct k; unfold all_kinds; among |].
    destruct k; split; vm_compute; discriminate.
  - apply (bool_decide_unpack _). vm_compute. exact I.
Qed.

(** ** Event ids *)

Lemma list_ascii_of_string_app (a b : string) :
  String.list_ascii_of_string (a +:+ b) = String.list_ascii_of_string a ++ String.list_ascii_of_string b.
Proof. induction a as [|c a IH]; simpl; [reflexivity | rewrite IH; reflexivity]. Qed.

Lemma rchars_app (a b : string) : rchars (a +:+ b) = rchars b ++ rchars a.
Proof. unfold rchars. rewrite list_ascii_of_string_app. apply rev_app_distr. Qed.

Lemma rchars_inj (a b : string) : rchars a = rchars b → a = b.
Proof.
  unfold rchars. intros E. apply (f_equal (@rev _)) in E.
  rewrite !rev_involutive in E.
  rewrite <- (String.string_of_list_ascii_of_string a), <- (String.string_of_list_ascii_of_string b).
  rewrite E. reflexivity.
Qed.

Lemma suffix_eq (a b x y : string) :
  a +:+ x = b +:+ y → rchars x ++ rchars a = rchars y ++ rchars b.
Proof. intros E. rewrite <- !rchars_app, E. reflexivity. Qed.

Lemma prefix_cancel (a x y : string) : a +:+ x = a +:+ y → x = y.
Proof. induction a as [|c a IH]; simpl; [auto | intros [= E]; auto]. Qed.

(** Decides an equation between two ids built with literal suffixes: it is
    refuted, or it leaves what it says about the two prefixes. *)
Ltac suffix_clash E :=
  apply suffix_eq in E; simpl in E;
  first [ discriminate E | injection E as E ].

Lemma existing_ids_app (l k : list (string * option Z)) :
  existing_ids (l ++ k) = existing_ids l ++ existing_ids k.
Proof. unfold existing_ids. apply omap_app. Qed.

Lemma push_checkpoint_ids ts id ty title descr (st : Emission) :
  map TimelineEvent.id (push_checkpoint ts id ty title descr st)
  = map TimelineEvent.id (events st) ++ existing_ids [(id, ts)].
Proof.
  unfold push_checkpoint. destruct ts as [t|]; simpl.
  - rewrite map_app. reflexivity.
  - rewrite app_nil_r. reflexivity.
Qed.

Lemma checkpoint_ids ts id ty title descr (st : Emission) :
  map TimelineEvent.id (events (checkpoint ts id ty title descr st))
  = map TimelineEvent.id (events st) ++ existing_ids [(id, ts)].
Proof. apply push_checkpoint_ids. Qed.

Lemma studyEvents_ids (st : Emission) (s : Study.t) :
  map TimelineEvent.id (events (studyEvents st s))
  = map TimelineEvent.id (events st) ++ existing_ids (study_event_ids s).
Proof.
  unfold studyEvents, study_event_ids.
  rewrite !checkpoint_ids, <- !app_assoc, <- !existing_ids_app. reflexivity.
Qed.

Lemma foldl_studyEvents_ids (l : list Study.t) (st : Emission) :
  map TimelineEvent.id (events (foldl studyEvents st l))
  = map TimelineEvent.id (events st) ++ existing_ids (l ≫= study_event_ids).
Proof.
  revert st. induction l as [|s l IH]; intros st.
  - simpl. rewrite app_nil_r. reflexivity.
  - rewrite bind_cons, existing_ids_app, app_assoc, <- studyEvents_ids.
    apply IH.
Qed.

Lemma emittedEvents_ids (p : Patient.t) (studies : list Study.t) :
  map TimelineEvent.id (emittedEvents p studies)
  = existing_ids (event_ids p (sort_by Study.requestedAt studies)).
Proof.
  unfold emittedEvents, event_ids.
  rewrite push_checkpoint_ids, checkpoint_ids, foldl_studyEvents_ids,
    !checkpoint_ids.
  rewrite !existing_ids_app, <- !app_assoc.
  destruct (Patient.assignedToDoctorAt p), (Patient.firstStudyRequestedAt p),
    (Patient.allStudiesCompletedAt p), (Patient.dischargedAt p);
    reflexivity.
Qed.

Lemma existing_ids_sublist (l : list (string * option Z)) :
  existing_ids l `sublist_of` map fst l.
Proof.
  induction l as [|[id [t|]] l IH]; simpl.
  - constructor.
  - apply sublist_skip, IH.
  - apply sublist_cons, IH.
Qed.

Lemma study_ids_NoDup (l : list Study.t) :
  NoDup (map Study.id l) → NoDup (map fst (l ≫= study_event_ids)).
Proof.
  induction l as [|s l IH]; intros Hnd; [constructor |].
  simpl in Hnd. apply NoDup_cons in Hnd as [Hs Hnd].
  rewrite bind_cons, map_app. apply NoDup_app. split; [| split].
  - simpl. repeat constructor;
      rewrite ?not_elem_of_cons; repeat split;
      try apply not_elem_of_nil; intros E; apply prefix_cancel in E; discriminate E.
  - intros x Hx Hx'.
    apply list_elem_of_fmap in Hx' as ([x' o] & -> & Hx').
    apply list_elem_of_bind in Hx' as (s' & Hx' & Hs').
    assert (Study.id s ≠ Study.id s') as Hne.
    { intros E. apply Hs. rewrite E. apply list_elem_of_fmap. eauto. }
    unfold study_event_ids in Hx'. simpl in Hx, Hx'.
    repeat (apply elem_of_cons in Hx' as [Hx' | Hx']; [injection Hx' as -> _ |]);
      try (apply elem_of_nil in Hx'; contradiction);
      repeat (apply elem_of_cons in Hx as [Hx | Hx]);
      try (apply elem_of_nil in Hx; contradiction);
      symmetry in Hx; suffix_clash Hx; apply Hne, rchars_inj, Hx.
  - apply IH, Hnd.
Qed.

Lemma study_id_meets_patient_id (p : Patient.t) (s : Study.t) (x : string) :
  x ∈ map fst (study_event_ids s) →
  x ∈ [ Patient.id p +:+ "-admission"; Patient.id p +:+ "-doctor-assigned";
        Patient.id p +:+ "-first-study"; Patient.id p +:+ "-all-completed";
        Patient.id p +:+ "-discharge" ] →
  Study.id s = Patient.id p +:+ "-all".
Proof.
  unfold study_event_ids. simpl. intros Hs Hp.
  repeat (apply elem_of_cons in Hs as [-> | Hs]);
    try (apply elem_of_nil in Hs; contradiction);
    repeat (apply elem_of_cons in Hp as [Hp | Hp]);
    try (apply elem_of_nil in Hp; contradiction);
    suffix_clash Hp; apply rchars_inj; rewrite rchars_app; exact Hp.
Qed.

Lemma patient_ids_NoDup (pid : string) :
  NoDup [ pid +:+ "-admission"; pid +:+ "-doctor-assigned"; pid +:+ "-first-study";
          pid +:+ "-all-completed"; pid +:+ "-discharge" ].
Proof.
  repeat constructor; rewrite ?not_elem_of_cons; repeat split;
    try apply not_elem_of_nil; intros E; apply prefix_cancel in E; discriminate E.
Qed.

(** X18. When the studies have pairwise different ids and no study id is
    the patient id followed by -all, the events of the timeline have
    pairwise different ids. *)
Theorem generatePatientTimeline_ids_NoDup (p : Patient.t) (studies : list Study.t) :
  NoDup (map Study.id studies) →
  (∀ s, s ∈ studies → Study.id s ≠ Patient.id p +:+ "-all") →
  NoDup (map TimelineEvent.id (generatePatientTimeline p studies)).
Proof.
  intros Hnd Hall.
  assert (Hperm : map TimelineEvent.id (generatePatientTimeline p studies)
                  ≡ₚ map TimelineEvent.id (emittedEvents p studies)).
  { apply Permutation_map, sort_by_perm. }
  rewrite Hperm, emittedEvents_ids.
  eapply sublist_NoDup; [| apply existing_ids_sublist].
  pose proof (sort_by_perm Study.requestedAt studies) as Hord.
  assert (Hnd' : NoDup (map Study.id (sort_by Study.requestedAt studies))).
  { rewrite (Permutation_map Study.id Hord). exact Hnd. }
  assert (Hall' : ∀ s, s ∈ sort_by Study.requestedAt studies →
                       Study.id s ≠ Patient.id p +:+ "-all").
  { intros s Hs. apply Hall. rewrite <- Hord. exact Hs. }
  clear Hperm Hnd Hall Hord.
  generalize dependent (sort_by Study.requestedAt studies). intros ordered Hnd Hall.
  assert (Hcross : ∀ x, x ∈ map fst (ordered ≫= study_event_ids) →
            x ∉ [ Patient.id p +:+ "-admission"; Patient.id p +:+ "-doctor-assigned";
                  Patient.id p +:+ "-first-study"; Patient.id p +:+ "-all-completed";
                  Patient.id p +:+ "-discharge" ]).
  { intros x Hx Hp.
    apply list_elem_of_fmap in Hx as ([x' o] & -> & Hx).
    apply list_elem_of_bind in Hx as (s & Hx & Hs).
    apply (Hall s Hs), (study_id_meets_patient_id p s x'); [| exact Hp].
    apply list_elem_of_fmap. exists (x', o). split; [reflexivity | exact Hx]. }
  pose proof (patient_ids_NoDup (Patient.id p)) as Hpat.
  assert (Hgoal : [ Patient.id p +:+ "-admission"; Patient.id p +:+ "-doctor-assigned";
                    Patient.id p +:+ "-first-study"; Patient.id p +:+ "-all-completed";
                    Patient.id p +:+ "-discharge" ]
                  ++ map fst (ordered ≫= study_event_ids)
                  ≡ₚ map fst (event_ids p ordered)).
  { unfold event_ids. rewrite !map_app. simpl.
    do 3 apply Permutation_skip. apply (Permutation_app_comm [_; _]). }
  rewrite <- Hgoal. apply NoDup_app. split; [exact Hpat |]. split.
  - intros x Hp Hx. exact (Hcross x Hx Hp).
  - apply study_ids_NoDup, Hnd.
Qed.

Lemma generatePatientTimeline_ids_NoDup_witness :
  NoDup (map TimelineEvent.id (generatePatientTimeline scenario_patient [scenario_study])).
Proof.
  apply (generatePatientTimeline_ids_NoDup scenario_patient [scenario_study]).
  - apply (bool_decide_unpack _). vm_compute. exact I.
  - intros s Hs. apply list_elem_of_singleton in Hs as ->. discriminate.
Defined.

(** Without the second condition two events can share an id. *)
Example event_ids_clash :
  map TimelineEvent.id (generatePatientTimeline scenario_patient [clashing_study])
  = [ "p1-admission"; "p1-doctor-assigned"; "p1-first-study";
      "p1-all-completed"; "p1-all-completed" ].
Proof. reflexivity. Qed.

(** ** What the stage depends on *)

Lemma in_flight_statuses (l : list Study.t) :
  Exists in_flight l
  ↔ Exists (fun st => st = Requested ∨ st = PendingResult) (map Study.status l).
Proof.
  rewrite !Exists_exists. split.
  - intros (s & Hs & H). exists (Study.status s). split; [| exact H].
    apply list_elem_of_fmap. eauto.
  - intros (st & Hst & H). apply list_elem_of_fmap in Hst as (s & -> & Hs). eauto.
Qed.

Lemma completed_statuses (l : list Study.t) :
  Forall is_completed l ↔ Forall (fun st => st = Completed) (map Study.status l).
Proof.
  rewrite !Forall_forall. split.
  - intros H st Hst. apply list_elem_of_fmap in Hst as (s & -> & Hs). apply H, Hs.
  - intros H s Hs. apply H, list_elem_of_fmap. eauto.
Qed.

Lemma classifyStage_transfer (p q : Patient.t) (st : KanbanStage) :
  Patient.status p = Patient.status q →
  truthy (Patient.assignedToDoctorAt p) = truthy (Patient.assignedToDoctorAt q) →
  truthy (Patient.allStudiesCompletedAt p) = truthy (Patient.allStudiesCompletedAt q) →
  map Study.status (Patient.studies p) ≡ₚ map Study.status (Patient.studies q) →
  classifyStage p st → classifyStage q st.
Proof.
  intros Hst Hdoc Hall Hperm.
  assert (Hnone : ∀ a b : option Z, truthy a = truthy b → (a = None ↔ b = None)).
  { intros [?|] [?|]; simpl; intros E; split; congruence. }
  assert (Hnil : Patient.studies p = [] ↔ Patient.studies q = []).
  { apply Permutation_length in Hperm. rewrite !length_map in Hperm.
    destruct (Patient.studies p), (Patient.studies q);
      simpl in Hperm; split; congruence. }
  assert (Hfl : Exists in_flight (Patient.studies p)
                ↔ Exists in_flight (Patient.studies q)).
  { rewrite !in_flight_statuses, Hperm. reflexivity. }
  assert (Hco : Forall is_completed (Patient.studies p)
                ↔ Forall is_completed (Patient.studies q)).
  { rewrite !completed_statuses, Hperm. reflexivity. }
  apply Hnone in Hdoc, Hall.
  destruct 1; [ apply row_discharge | apply row_admission
              | apply row_waiting_doctor | apply row_in_studies
              | apply row_results_ready | apply row_in_progress
              | apply row_fallback ];
    rewrite <- ?Hst; tauto.
Qed.

(** X19. The stage of a patient depends only on its status, on whether
    assignedToDoctorAt and allStudiesCompletedAt are present, and on the
    statuses of its studies, in any order: two patients that agree on these
    are in the same stage. *)
Theorem getPatientStage_depends_only_on (p q : Patient.t) :
  Patient.status p = Patient.status q →
  truthy (Patient.assignedToDoctorAt p) = truthy (Patient.assignedToDoctorAt q) →
  truthy (Patient.allStudiesCompletedAt p) = truthy (Patient.allStudiesCompletedAt q) →
  map Study.status (Patient.studies p) ≡ₚ map Study.status (Patient.studies q) →
  getPatientStage p = getPatientStage q.
Proof.
  intros Hst Hdoc Hall Hperm.
  apply (classifyStage_functional q); [| apply getPatientStage_classifies].
  apply (classifyStage_transfer p q); auto using getPatientStage_classifies.
Qed.

Lemma getPatientStage_depends_only_on_witness :
  getPatientStage (ready_patient [ready_study_a; odd_study])
  = getPatientStage (ready_patient [odd_study; ready_study_a]).
Proof.
  apply (getPatientStage_depends_only_on
           (ready_patient [ready_study_a; odd_study])
           (ready_patient [odd_study; ready_study_a]));
    [reflexivity | reflexivity | reflexivity |].
  simpl. apply Permutation_swap.
Defined.
